(** * CopyBot_Fast: the event-to-order replication pipeline

    A shallow embedding of [polymarket_copy_trading_bot]:
    - [database.py]       the trade store ([TradeDatabase]),
    - [trade_monitor.py]  the event decoder and monitor ([TradeMonitor]),
    - [trade_executor.py] the executor with bounded retry ([TradeExecutor]),
    - [main.py]           the wiring of the monitor's callback to the executor.

    Python [float] is IEEE binary64 and is embedded as Rocq's primitive
    [float]; Python [int] is [Z]; [str] is [string]; [dict.get] on a key that
    may be missing returns an [option].  Exceptions are values of [Py.exn]
    threaded through the [Py.result] monad. *)

From Stdlib Require Import ZArith List String Ascii Bool Lia.
From Stdlib Require Import Floats.PrimFloat Floats.SpecFloat Floats.FloatOps.
From Stdlib Require Import Floats.FloatAxioms.
From Stdlib Require Import DecimalString.
From Stdlib Require Strings.Byte.
Import ListNotations.

Local Open Scope string_scope.
Local Open Scope list_scope.
Local Open Scope Z_scope.

(* ================================================================== *)
(** * Python values and built-ins used by the sources *)
(* ================================================================== *)

Module Py.

(** The exceptions the modelled code can meet. *)
Inductive exn : Type :=
| OverflowError                 (* float(int) of an int beyond the binary64 range *)
| AttributeError                (* a method called on None *)
| TypeError                     (* an operator applied to None *)
| BlockLookupError              (* w3.eth.get_block raised *)
| VenueError (msg : string).    (* create_order / post_order raised *)

Inductive result (A : Type) : Type :=
| Ok (a : A)
| Raise (e : exn).
Arguments Ok {A} a.
Arguments Raise {A} e.

Definition bind {A B : Type} (m : result A) (k : A -> result B) : result B :=
  match m with
  | Ok a => k a
  | Raise e => Raise e
  end.

(** [str.lower] on one character (ASCII letters; addresses are hex text). *)
Definition lower_ascii (c : ascii) : ascii :=
  let n := nat_of_ascii c in
  if (Nat.leb 65 n && Nat.leb n 90)%bool then ascii_of_nat (n + 32) else c.

(** [str.lower]. *)
Fixpoint lower (s : string) : string :=
  match s with
  | EmptyString => EmptyString
  | String c rest => String (lower_ascii c) (lower rest)
  end.

Definition hex_digit (n : N) : ascii :=
  match n with
  | 0%N => "0" | 1%N => "1" | 2%N => "2" | 3%N => "3"
  | 4%N => "4" | 5%N => "5" | 6%N => "6" | 7%N => "7"
  | 8%N => "8" | 9%N => "9" | 10%N => "a" | 11%N => "b"
  | 12%N => "c" | 13%N => "d" | 14%N => "e" | _ => "f"
  end%char.

(** [HexBytes.hex], as [bytes.hex]: two lower-case hexadecimal digits per
    byte, no prefix. *)
Fixpoint hex (bs : list Byte.byte) : string :=
  match bs with
  | [] => EmptyString
  | b :: rest =>
      let n := Byte.to_N b in
      String (hex_digit (N.div n 16)) (String (hex_digit (N.modulo n 16)) (hex rest))
  end.

(** [str(int)]: the decimal numeral. *)
Definition str (z : Z) : string := NilZero.string_of_int (Z.to_int z).

(** [float(int)]: the nearest binary64 value, ties to even; Python raises
    [OverflowError] when the int is too large for a finite float. *)
Definition float_of_int (z : Z) : result float :=
  let f := SF2Prim (binary_normalize prec emax z 0 false) in
  if PrimFloat.is_infinity f then Raise OverflowError else Ok f.

(** The mathematical comparison of an [int] with a [float], as CPython's
    mixed rich comparison computes it: [None] when the float is a NaN. *)
Definition compare_int_float (i : Z) (f : float) : option comparison :=
  match Prim2SF f with
  | S754_nan => None
  | S754_infinity negative => Some (if negative then Gt else Lt)
  | S754_zero _ => Some (i ?= 0)
  | S754_finite negative m e =>
      let v := if negative then Z.neg m else Z.pos m in
      if 0 <=? e then Some (i ?= v * 2 ^ e) else Some (i * 2 ^ (- e) ?= v)
  end.

(** [i >= f] *)
Definition int_ge_float (i : Z) (f : float) : bool :=
  match compare_int_float i f with
  | Some Lt | None => false
  | Some _ => true
  end.

(** [i < f] *)
Definition int_lt_float (i : Z) (f : float) : bool :=
  match compare_int_float i f with
  | Some Lt => true
  | _ => false
  end.

(** [str(e)] of a caught exception. *)
Definition str_exn (e : exn) : string :=
  match e with
  | OverflowError => "int too large to convert to float"
  | AttributeError => "'NoneType' object has no attribute 'lower'"
  | TypeError => "unsupported operand type(s)"
  | BlockLookupError => "block not found"
  | VenueError msg => msg
  end.

(** [range(n)]. *)
Definition range (n : Z) : list Z := map Z.of_nat (seq 0 (Z.to_nat n)).

(** Truthiness of a float: every value but the two zeros. *)
Definition truthy (f : float) : bool := negb (PrimFloat.eqb f 0).

(** [a == b] on values that are a [str] or [None]. *)
Definition eqb_opt_str (a b : option string) : bool :=
  match a, b with
  | Some x, Some y => String.eqb x y
  | None, None => true
  | _, _ => false
  end.

End Py.

Notation "x <- m ;; k" := (Py.bind m (fun x => k))
  (at level 61, m at next level, right associativity).

(* ================================================================== *)
(** * config.py *)
(* ================================================================== *)

(** The entries of [CONFIG] the core reads. *)
Record Config : Type := {
  TARGET_WALLET : option string;   (* os.getenv("TARGET_WALLET") *)
  TOO_OLD_TIMESTAMP : Z;           (* int(os.getenv(..., "300")) *)
  RETRY_LIMIT : Z                  (* int(os.getenv(..., "3")) *)
}.

(* ================================================================== *)
(** * database.py *)
(* ================================================================== *)

Module Database.

Inductive Status : Type := pending | success | failed.

Definition Status_eqb (a b : Status) : bool :=
  match a, b with
  | pending, pending | success, success | failed, failed => true
  | _, _ => false
  end.

(** The dict handed to [save_trade]; each field is what [.get] returns. *)
Record TradeData : Type := {
  td_trade_id : option string;
  td_market : option string;
  td_asset_id : option string;
  td_side : option string;
  td_price : option float;
  td_size : option float;
  td_timestamp : option Z
}.

(** The stored record built by [save_trade]. *)
Record TradeDoc : Type := {
  trade_id : option string;
  market : option string;
  asset_id : option string;
  side : option string;
  price : option float;
  size : option float;
  timestamp : option Z;
  status : Status;
  retry_count : Z;
  created_at : float
}.

(** [self._in_memory], in insertion order.  The model is the store with
    [self.client = None]; the durable backend is an external service. *)
Definition TradeDatabase : Type := list TradeDoc.

(** [TradeDatabase.__init__] on the fallback path. *)
Definition init : TradeDatabase := [].

(** [save_trade(trade_data, status, retry_count)]; [now] is the reading of
    [time.time()] at line 36.  Returns the store and the new record. *)
Definition save_trade (self : TradeDatabase) (now : float) (trade_data : TradeData)
    (status : Status) (retry_count : Z) : TradeDatabase * TradeDoc :=
  let trade_doc :=
    {| trade_id := td_trade_id trade_data;
       market := td_market trade_data;
       asset_id := td_asset_id trade_data;
       side := td_side trade_data;
       price := td_price trade_data;
       size := td_size trade_data;
       timestamp := td_timestamp trade_data;
       status := status;
       retry_count := retry_count;
       created_at := now |} in
  (self ++ [trade_doc], trade_doc).

(** [save_trade(trade_data)] with the default arguments. *)
Definition save_trade_default (self : TradeDatabase) (now : float)
    (trade_data : TradeData) : TradeDatabase * TradeDoc :=
  save_trade self now trade_data pending 0.

(** [t.update(update_data)] where [update_data] holds the status and, when
    [retry_count is not None], the retry count. *)
Definition dict_update (t : TradeDoc) (new_status : Status) (new_retry : option Z) : TradeDoc :=
  {| trade_id := trade_id t;
     market := market t;
     asset_id := asset_id t;
     side := side t;
     price := price t;
     size := size t;
     timestamp := timestamp t;
     status := new_status;
     retry_count := match new_retry with Some n => n | None => retry_count t end;
     created_at := created_at t |}.

(** [update_trade_status]: the loop over [self._in_memory] that updates
    the first record with the given id and breaks. *)
Fixpoint update_trade_status (self : TradeDatabase) (id : option string)
    (new_status : Status) (new_retry : option Z) : TradeDatabase :=
  match self with
  | [] => []
  | t :: rest =>
      if Py.eqb_opt_str (trade_id t) id
      then dict_update t new_status new_retry :: rest
      else t :: update_trade_status rest id new_status new_retry
  end.

(** [get_pending_trades]. *)
Definition get_pending_trades (self : TradeDatabase) : list TradeDoc :=
  filter (fun t => Status_eqb (status t) pending) self.

(** Whether some stored record carries the id. *)
Definition has_trade (self : TradeDatabase) (id : option string) : bool :=
  existsb (fun t => Py.eqb_opt_str (trade_id t) id) self.

(** The first stored record with the id, the one [update_trade_status] writes. *)
Definition find_trade (self : TradeDatabase) (id : option string) : option TradeDoc :=
  find (fun t => Py.eqb_opt_str (trade_id t) id) self.

End Database.

(* ================================================================== *)
(** * trade_monitor.py *)
(* ================================================================== *)

Module Monitor.
Import Database.

(** One [orderFilled] log entry as the event filter yields it. *)
Record Event : Type := {
  maker : string;
  taker : string;
  makerAssetId : Z;
  takerAssetId : Z;
  makerAmountFilled : Z;
  takerAmountFilled : Z;
  transactionHash : list Byte.byte;
  blockNumber : Z
}.

Record TradeMonitor : Type := {
  target_wallet : string;
  db : TradeDatabase;
  (* self.w3.eth.get_block(n)["timestamp"] *)
  get_block_timestamp : Z -> Py.result Z
}.

(** [TradeMonitor.__init__]: the target is lower-cased once, the store
    starts empty. *)
Definition init (CONFIG : Config) (w3 : Z -> Py.result Z) : TradeMonitor :=
  {| target_wallet :=
       Py.lower (match TARGET_WALLET CONFIG with Some a => a | None => "" end);
     db := Database.init;
     get_block_timestamp := w3 |}.

Definition with_db (self : TradeMonitor) (d : TradeDatabase) : TradeMonitor :=
  {| target_wallet := target_wallet self;
     db := d;
     get_block_timestamp := get_block_timestamp self |}.

(** Lines 43-50: the side from the target's perspective, with the token
    and cash amounts chosen accordingly. *)
Definition infer_side (is_maker : bool) (maker_asset_id taker_asset_id : Z)
    (maker_amt taker_amt : float) : string * float * float :=
  if is_maker then
    if maker_asset_id =? 0
    then ("buy", taker_amt, maker_amt)
    else ("sell", maker_amt, taker_amt)
  else
    if taker_asset_id =? 0
    then ("buy", maker_amt, taker_amt)
    else ("sell", taker_amt, maker_amt).

(** Lines 30-68 of [handle_event]: [Ok None] is the early return for an
    event of another account, [Ok (Some trade_data)] the decoded intent. *)
Definition decode_event (self : TradeMonitor) (event : Event)
    : Py.result (option TradeData) :=
  let maker := Py.lower (maker event) in
  let taker := Py.lower (taker event) in
  if (negb (String.eqb maker (target_wallet self))
      && negb (String.eqb taker (target_wallet self)))%bool
  then Py.Ok None
  else
    let is_maker := String.eqb maker (target_wallet self) in
    let maker_asset_id := makerAssetId event in
    let taker_asset_id := takerAssetId event in
    maker_amt <- Py.float_of_int (makerAmountFilled event) ;;
    taker_amt <- Py.float_of_int (takerAmountFilled event) ;;
    let '(side, token_amt, usdc_amt) :=
      infer_side is_maker maker_asset_id taker_asset_id maker_amt taker_amt in
    let price :=
      if PrimFloat.ltb 0 token_amt then PrimFloat.div usdc_amt token_amt else 0%float in
    let size := PrimFloat.div token_amt 1e6 in
    let asset_id :=
      Py.str (if negb (maker_asset_id =? 0) then maker_asset_id else taker_asset_id) in
    let market := "unknown" in
    let trade_id := Py.hex (transactionHash event) in
    block_time <- get_block_timestamp self (blockNumber event) ;;
    Py.Ok (Some {| td_trade_id := Some trade_id;
                   td_market := Some market;
                   td_asset_id := Some asset_id;
                   td_side := Some side;
                   td_price := Some price;
                   td_size := Some size;
                   td_timestamp := Some block_time |}).

(** [time.time() - CONFIG["TOO_OLD_TIMESTAMP"]], a float minus an int. *)
Definition staleness_threshold (CONFIG : Config) (now : float) : Py.result float :=
  max_age <- Py.float_of_int (TOO_OLD_TIMESTAMP CONFIG) ;;
  Py.Ok (PrimFloat.sub now max_age).

Section Callback.

(** The callback acts on a world [W] of its own; whether it returns or
    raises makes no difference to [handle_event], which does nothing
    after the call and catches every exception. *)
Context {W : Type} (trade_callback : TradeDoc -> W -> W).

(** The [try] body of [handle_event].  [now] is the reading of
    [time.time()] at line 69 and [created] the one inside [save_trade]. *)
Definition handle_event_body (CONFIG : Config) (self : TradeMonitor)
    (now created : float) (event : Event) (w : W) : Py.result (TradeMonitor * W) :=
  decoded <- decode_event self event ;;
  match decoded with
  | None => Py.Ok (self, w)
  | Some trade_data =>
      threshold <- staleness_threshold CONFIG now ;;
      match td_timestamp trade_data with
      | None => Py.Raise Py.TypeError
      | Some block_time =>
          if Py.int_ge_float block_time threshold
          then
            let '(db', trade_doc) := save_trade_default (db self) created trade_data in
            Py.Ok (with_db self db', trade_callback trade_doc w)
          else Py.Ok (self, w)
      end
  end.

(** [handle_event]: an exception of the body is logged and swallowed. *)
Definition handle_event (CONFIG : Config) (self : TradeMonitor)
    (now created : float) (event : Event) (w : W) : TradeMonitor * W :=
  match handle_event_body CONFIG self now created event w with
  | Py.Ok r => r
  | Py.Raise _ => (self, w)
  end.

(** One event together with the two clock readings taken while it is
    handled. *)
Record Arrival : Type := {
  arrived : Event;
  checked_at : float;
  saved_at : float
}.

(** The [for event in event_filter.get_new_entries()] loop of
    [_listen_events]. *)
Fixpoint handle_events (CONFIG : Config) (self : TradeMonitor)
    (entries : list Arrival) (w : W) : TradeMonitor * W :=
  match entries with
  | [] => (self, w)
  | a :: rest =>
      let '(self', w') :=
        handle_event CONFIG self (checked_at a) (saved_at a) (arrived a) w in
      handle_events CONFIG self' rest w'
  end.

End Callback.

(** A callback that only records what it is called with, oldest first. *)
Definition recording_callback (trade_doc : TradeDoc) (calls : list TradeDoc)
    : list TradeDoc :=
  calls ++ [trade_doc].

End Monitor.

(* ================================================================== *)
(** * trade_executor.py *)
(* ================================================================== *)

Module Executor.
Import Database.

(** [py_clob_client.order_builder.constants]. *)
Inductive Side : Type := BUY | SELL.

(** [OrderArgs(price, size, side, token_id)]. *)
Record OrderArgs : Type := {
  oa_price : option float;
  oa_size : float;
  oa_side : Side;
  oa_token_id : option string
}.

(** The order venue: [create_order] followed by [post_order] either
    returns the venue's response or raises.  The answer may depend on every
    order the venue was handed before. *)
Definition ClobClient : Type := list OrderArgs -> OrderArgs -> Py.result string.

(** The executor with its store and venue, and a record of the effects
    it has had: the orders handed to the venue (oldest first), the seconds
    slept, and the calls of [update_trade_status] (oldest first). *)
Record TradeExecutor : Type := {
  db : TradeDatabase;
  client : option ClobClient;
  submitted : list OrderArgs;
  slept : Z;
  status_writes : list (option string * Status)
}.

(** [TradeExecutor.__init__]. *)
Definition init (client : option ClobClient) : TradeExecutor :=
  {| db := Database.init;
     client := client;
     submitted := [];
     slept := 0;
     status_writes := [] |}.

(** [self.db.update_trade_status(trade_id, status)]. *)
Definition write_status (self : TradeExecutor) (id : option string) (st : Status)
    : TradeExecutor :=
  {| db := update_trade_status (db self) id st None;
     client := client self;
     submitted := submitted self;
     slept := slept self;
     status_writes := status_writes self ++ [(id, st)] |}.

(** Handing one order to the venue. *)
Definition submit (self : TradeExecutor) (order_args : OrderArgs) : TradeExecutor :=
  {| db := db self;
     client := client self;
     submitted := submitted self ++ [order_args];
     slept := slept self;
     status_writes := status_writes self |}.

(** [time.sleep(1)]. *)
Definition sleep1 (self : TradeExecutor) : TradeExecutor :=
  {| db := db self;
     client := client self;
     submitted := submitted self;
     slept := slept self + 1;
     status_writes := status_writes self |}.

(** What [execute_trade] returns. *)
Inductive Outcome : Type :=
| Simulated (trade_id : option string)   (* {"status": "simulated", "trade_id": ...} *)
| Response (resp : string)               (* the venue's response *)
| Failed (error : string)                (* {"status": "failed", "error": str(e)} *)
| ReturnedNone.                          (* the loop ran out without a return *)

(** Line 33: [trade_doc.get("size") * 0.2 if trade_doc.get("size") else 0];
    the literal is the binary64 value of [0.2]. *)
Definition order_size (trade_doc : TradeDoc) : float :=
  match size trade_doc with
  | Some s => if Py.truthy s then PrimFloat.mul s 0x1.999999999999ap-3 else 0%float
  | None => 0%float
  end.

(** Line 35: [BUY if side.lower() == "buy" else SELL]. *)
Definition side_constant (trade_doc : TradeDoc) : Py.result Side :=
  match side trade_doc with
  | None => Py.Raise Py.AttributeError
  | Some s => Py.Ok (if String.eqb (Py.lower s) "buy" then BUY else SELL)
  end.

Definition make_order (trade_doc : TradeDoc) (sc : Side) : OrderArgs :=
  {| oa_price := price trade_doc;
     oa_size := order_size trade_doc;
     oa_side := sc;
     oa_token_id := asset_id trade_doc |}.

(** One pass through the body of the [for attempt in range(...)] loop:
    [Some outcome] when the pass returns, [None] when the loop goes on. *)
Definition attempt_once (CONFIG : Config) (trade_doc : TradeDoc) (sc : Side)
    (attempt : Z) (self : TradeExecutor) : TradeExecutor * option Outcome :=
  let trade_id := trade_id trade_doc in
  match client self with
  | None =>
      (write_status self trade_id success, Some (Simulated trade_id))
  | Some venue =>
      let order_args := make_order trade_doc sc in
      let self1 := submit self order_args in
      match venue (submitted self) order_args with
      | Py.Ok resp =>
          (write_status self1 trade_id success, Some (Response resp))
      | Py.Raise e =>
          if attempt <? RETRY_LIMIT CONFIG
          then (sleep1 self1, None)
          else (write_status self1 trade_id failed, Some (Failed (Py.str_exn e)))
      end
  end.

(** The [for] loop over the attempts still to make. *)
Fixpoint for_attempts (CONFIG : Config) (trade_doc : TradeDoc) (sc : Side)
    (attempts : list Z) (self : TradeExecutor) : TradeExecutor * Outcome :=
  match attempts with
  | [] => (self, ReturnedNone)
  | attempt :: rest =>
      match attempt_once CONFIG trade_doc sc attempt self with
      | (self', Some outcome) => (self', outcome)
      | (self', None) => for_attempts CONFIG trade_doc sc rest self'
      end
  end.

(** [execute_trade(trade_doc)]. *)
Definition execute_trade (CONFIG : Config) (self : TradeExecutor) (trade_doc : TradeDoc)
    : TradeExecutor * Py.result Outcome :=
  match side_constant trade_doc with
  | Py.Raise e => (self, Py.Raise e)
  | Py.Ok sc =>
      let '(self', outcome) :=
        for_attempts CONFIG trade_doc sc (Py.range (RETRY_LIMIT CONFIG + 1)) self in
      (self', Py.Ok outcome)
  end.

(** The loop heads reached while the loop runs: [loop_head cfg doc sc l s l' s']
    says that the loop started on the attempts [l] in state [s] comes back
    to its head with the attempts [l'] left, in state [s']. *)
Inductive loop_head (CONFIG : Config) (trade_doc : TradeDoc) (sc : Side)
    : list Z -> TradeExecutor -> list Z -> TradeExecutor -> Prop :=
| loop_head_here : forall l s, loop_head CONFIG trade_doc sc l s l s
| loop_head_next : forall attempt rest s s1 l' s',
    attempt_once CONFIG trade_doc sc attempt s = (s1, None) ->
    loop_head CONFIG trade_doc sc rest s1 l' s' ->
    loop_head CONFIG trade_doc sc (attempt :: rest) s l' s'.

(** The executor after [n] attempts that failed and were followed by the
    back-off sleep. *)
Fixpoint retried (order_args : OrderArgs) (n : nat) (self : TradeExecutor)
    : TradeExecutor :=
  match n with
  | O => self
  | S n' => retried order_args n' (sleep1 (submit self order_args))
  end.

(** The same record under another side. *)
Definition with_side (t : TradeDoc) (s : option string) : TradeDoc :=
  {| trade_id := trade_id t;
     market := market t;
     asset_id := asset_id t;
     side := s;
     price := price t;
     size := size t;
     timestamp := timestamp t;
     status := status t;
     retry_count := retry_count t;
     created_at := created_at t |}.

(** The stored status of the intent: that of the first record with its id. *)
Definition stored_status (self : TradeExecutor) (id : option string) : option Status :=
  option_map status (find_trade (db self) id).

End Executor.

(* ================================================================== *)
(** * main.py *)
(* ================================================================== *)

Module Main.

(** [main] builds an executor and a monitor, each with a [TradeDatabase]
    of its own, and hands [executor.execute_trade] to the monitor. *)
Record Bot : Type := {
  monitor : Monitor.TradeMonitor;
  executor : Executor.TradeExecutor
}.

Definition trade_callback (CONFIG : Config) (trade_doc : Database.TradeDoc)
    (ex : Executor.TradeExecutor) : Executor.TradeExecutor :=
  fst (Executor.execute_trade CONFIG ex trade_doc).

Definition start (CONFIG : Config) (w3 : Z -> Py.result Z)
    (client : option Executor.ClobClient) : Bot :=
  {| monitor := Monitor.init CONFIG w3;
     executor := Executor.init client |}.

(** The listener thread handling the entries of one poll. *)
Definition on_events (CONFIG : Config) (bot : Bot) (entries : list Monitor.Arrival) : Bot :=
  let '(m, e) :=
    Monitor.handle_events (trade_callback CONFIG) CONFIG (monitor bot) entries (executor bot) in
  {| monitor := m; executor := e |}.

End Main.

(* ================================================================== *)
(** * The decoder as section 4.2 of the specification words it *)
(* ================================================================== *)

Module Spec.
Import Monitor.

(** Step 1: maker or taker equals the target account, case-insensitively. *)
Definition matches (account : string) (ev : Event) : bool :=
  (String.eqb (Py.lower (maker ev)) (Py.lower account)
   || String.eqb (Py.lower (taker ev)) (Py.lower account))%bool.

(** Step 2: the target's role. *)
Definition is_maker (account : string) (ev : Event) : bool :=
  String.eqb (Py.lower (maker ev)) (Py.lower account).

(** Step 3: the cash leg is the leg whose asset id is the zero sentinel;
    the event has a cash leg and an asset leg when exactly one id is zero. *)
Definition cash_leg_is_maker_asset (ev : Event) : bool := makerAssetId ev =? 0.

Definition one_cash_leg (ev : Event) : bool :=
  xorb (makerAssetId ev =? 0) (takerAssetId ev =? 0).

(** Step 4: the maker supplies the maker leg and the taker the taker leg;
    the target bought iff the leg it supplied is the cash leg. *)
Definition expected_side (target_is_maker cash_is_maker_asset : bool) : string :=
  if Bool.eqb target_is_maker cash_is_maker_asset then "buy" else "sell".

(** Step 5: the filled amounts of the asset leg and of the cash leg. *)
Definition asset_leg_amount (ev : Event) : Z :=
  if makerAssetId ev =? 0 then takerAmountFilled ev else makerAmountFilled ev.

Definition cash_leg_amount (ev : Event) : Z :=
  if makerAssetId ev =? 0 then makerAmountFilled ev else takerAmountFilled ev.

(** Step 8: the asset id of the leg that is not cash. *)
Definition asset_leg_id (ev : Event) : Z :=
  if makerAssetId ev =? 0 then takerAssetId ev else makerAssetId ev.

End Spec.

(* ================================================================== *)
(** * Sample configurations, events and venues *)
(* ================================================================== *)

Module Sample.
Import Database Monitor Executor.

Definition cfg : Config :=
  {| TARGET_WALLET := Some "0xAbC"; TOO_OLD_TIMESTAMP := 300; RETRY_LIMIT := 3 |}.

(** Every block was mined at second 1700000000. *)
Definition chain (n : Z) : Py.result Z := Py.Ok 1700000000.

Definition mon : TradeMonitor := Monitor.init cfg chain.

(** The target, as maker, pays 65 units of cash for 100 units of asset 42. *)
Definition ev_buy : Event :=
  {| maker := "0xABC"; taker := "0xdef";
     makerAssetId := 0; takerAssetId := 42;
     makerAmountFilled := 65000000; takerAmountFilled := 100000000;
     transactionHash := [Byte.xde; Byte.xad]; blockNumber := 7 |}.

(** The same fill with nothing filled on the asset leg. *)
Definition ev_zero : Event :=
  {| maker := "0xABC"; taker := "0xdef";
     makerAssetId := 0; takerAssetId := 42;
     makerAmountFilled := 65000000; takerAmountFilled := 0;
     transactionHash := [Byte.xde; Byte.xad]; blockNumber := 7 |}.

(** A fill between two other accounts. *)
Definition ev_other : Event :=
  {| maker := "0x123"; taker := "0xdef";
     makerAssetId := 0; takerAssetId := 42;
     makerAmountFilled := 65000000; takerAmountFilled := 100000000;
     transactionHash := [Byte.xbe; Byte.xef]; blockNumber := 7 |}.

(** What [ev_buy] decodes to. *)
Definition td_buy : TradeData :=
  {| td_trade_id := Some "dead"; td_market := Some "unknown";
     td_asset_id := Some "42"; td_side := Some "buy";
     td_price := Some (PrimFloat.div 65000000 100000000);
     td_size := Some 100%float; td_timestamp := Some 1700000000 |}.

(** [ev_buy] seen 100 seconds after its block. *)
Definition arrival : Arrival :=
  {| arrived := ev_buy; checked_at := 1700000100; saved_at := 1700000100 |}.

Definition doc (side : option string) : TradeDoc :=
  {| trade_id := Some "dead"; market := Some "unknown"; asset_id := Some "42";
     side := side; price := Some 0x1.4cccccccccccdp-1%float; size := Some 100%float;
     timestamp := Some 1700000000; status := pending; retry_count := 0;
     created_at := 1700000100 |}.

Definition other_doc : TradeDoc :=
  {| trade_id := Some "beef"; market := Some "unknown"; asset_id := Some "7";
     side := Some "sell"; price := Some 0.5%float; size := Some 10%float;
     timestamp := Some 1700000000; status := pending; retry_count := 0;
     created_at := 1700000100 |}.

(** Venues: one that accepts every order, one that rejects every order,
    and one that rejects until it has been handed [n] orders. *)
Definition venue_ok : ClobClient := fun _ _ => Py.Ok "matched".

Definition venue_down : ClobClient := fun _ _ => Py.Raise (Py.VenueError "503").

Definition venue_up_after (n : nat) : ClobClient :=
  fun history _ =>
    if Nat.ltb (List.length history) n
    then Py.Raise (Py.VenueError "503") else Py.Ok "matched".

(** An executor whose store holds the two sample records. *)
Definition exec (client : option ClobClient) : TradeExecutor :=
  {| db := [other_doc; doc (Some "buy"); doc (Some "buy")];
     client := client; submitted := []; slept := 0; status_writes := [] |}.

End Sample.

(* ================================================================== *)
(** * trade_monitor.py: the listener thread *)
(* ================================================================== *)

Module Listener.
Import Database Monitor.

(** What one call of [event_filter.get_new_entries()] gives: the new
    entries, or an exception. *)
Definition Poll : Type := Py.result (list Arrival).

Section Callback.

Context {W : Type} (trade_callback : TradeDoc -> W -> W).

(** The listener thread: the monitor, the callback's world and the number
    of [time.sleep(CONFIG["FETCH_INTERVAL"])] calls made so far. *)
Record Loop : Type := {
  mon : TradeMonitor;
  world : W;
  sleeps : nat
}.

(** One pass through the body of [while True] in [_listen_events]: the
    entries of the poll are handled in order and the thread sleeps; when
    the poll raises, the error is logged and the thread sleeps. *)
Definition listen_pass (CONFIG : Config) (st : Loop) (poll : Poll) : Loop :=
  match poll with
  | Py.Ok entries =>
      let '(m, w) := handle_events trade_callback CONFIG (mon st) entries (world st) in
      {| mon := m; world := w; sleeps := S (sleeps st) |}
  | Py.Raise _ =>
      {| mon := mon st; world := world st; sleeps := S (sleeps st) |}
  end.

(** [_listen_events] over the polls made so far. *)
Definition listen_events (CONFIG : Config) (st : Loop) (polls : list Poll) : Loop :=
  fold_left (listen_pass CONFIG) polls st.

End Callback.

Arguments Loop : clear implicits.

(** The entries of the polls that did not raise, in order. *)
Fixpoint delivered (polls : list Poll) : list Arrival :=
  match polls with
  | [] => []
  | Py.Ok entries :: rest => entries ++ delivered rest
  | Py.Raise _ :: rest => delivered rest
  end.

End Listener.

(* ================================================================== *)
(** * Vocabulary for the properties of the pipeline *)
(* ================================================================== *)

Module Pipeline.
Import Database.

(** Two records carry the same trade: they agree on every field that
    [save_trade] copies from the trade data, and on the creation time. *)
Definition same_trade_data (t u : TradeDoc) : Prop :=
  trade_id t = trade_id u
  /\ market t = market u
  /\ asset_id t = asset_id u
  /\ side t = side u
  /\ price t = price u
  /\ size t = size u
  /\ timestamp t = timestamp u
  /\ created_at t = created_at u.

(** The callback called on each record of a list in turn. *)
Definition dispatch {W : Type} (trade_callback : TradeDoc -> W -> W)
    (docs : list TradeDoc) (w : W) : W :=
  fold_left (fun w' d => trade_callback d w') docs w.

(** The order [execute_trade] builds for a record that has a side. *)
Definition order_of (t : TradeDoc) : Executor.OrderArgs :=
  Executor.make_order t
    (match side t with
     | Some s => if String.eqb (Py.lower s) "buy" then Executor.BUY else Executor.SELL
     | None => Executor.SELL
     end).

(** The value of a hexadecimal digit. *)
Definition hex_value (c : ascii) : N :=
  match c with
  | "0" => 0 | "1" => 1 | "2" => 2 | "3" => 3 | "4" => 4
  | "5" => 5 | "6" => 6 | "7" => 7 | "8" => 8 | "9" => 9
  | "a" => 10 | "b" => 11 | "c" => 12 | "d" => 13 | "e" => 14
  | _ => 15
  end%char%N.

End Pipeline.

(* ================================================================== *)
(** * Properties of the trade store *)
(* ================================================================== *)

Section StoreFacts.
Import Database.

Lemma eqb_opt_str_true (a b : option string) :
  Py.eqb_opt_str a b = true <-> a = b.
Proof.
  destruct a as [x|], b as [y|]; simpl; split; intro H;
    try discriminate; try reflexivity.
  - apply String.eqb_eq in H. now subst.
  - injection H as ->. apply String.eqb_refl.
Qed.

Lemma eqb_opt_str_refl (a : option string) : Py.eqb_opt_str a a = true.
Proof. now apply eqb_opt_str_true. Qed.

Lemma update_absent (self : TradeDatabase) id st rc :
  has_trade self id = false -> update_trade_status self id st rc = self.
Proof.
  induction self as [|t rest IH]; simpl; intro H; [reflexivity|].
  apply orb_false_iff in H as [Ht Hrest].
  rewrite Ht. f_equal. now apply IH.
Qed.

Lemma update_first (pre post : TradeDatabase) (t : TradeDoc) id st rc :
  has_trade pre id = false ->
  Py.eqb_opt_str (trade_id t) id = true ->
  update_trade_status (pre ++ t :: post) id st rc
  = pre ++ dict_update t st rc :: post.
Proof.
  induction pre as [|p pre IH]; simpl; intros Hpre Ht.
  - now rewrite Ht.
  - apply orb_false_iff in Hpre as [Hp Hpre].
    rewrite Hp. f_equal. now apply IH.
Qed.

Lemma update_length (self : TradeDatabase) id st rc :
  List.length (update_trade_status self id st rc) = List.length self.
Proof.
  induction self as [|t rest IH]; simpl; [reflexivity|].
  destruct (Py.eqb_opt_str (trade_id t) id); simpl; congruence.
Qed.

(** A record under another id is left as it is, at its position. *)
Lemma update_other (self : TradeDatabase) id st rc (i : nat) (t : TradeDoc) :
  nth_error self i = Some t ->
  Py.eqb_opt_str (trade_id t) id = false ->
  nth_error (update_trade_status self id st rc) i = Some t.
Proof.
  revert i. induction self as [|u rest IH]; intros [|i] Hi Ht; simpl in *;
    try discriminate.
  - injection Hi as ->. now rewrite Ht.
  - destruct (Py.eqb_opt_str (trade_id u) id); simpl; auto.
Qed.

Lemma find_after_update (self : TradeDatabase) id st rc (t : TradeDoc) :
  find_trade self id = Some t ->
  find_trade (update_trade_status self id st rc) id = Some (dict_update t st rc).
Proof.
  unfold find_trade.
  induction self as [|u rest IH]; simpl; [discriminate|].
  destruct (Py.eqb_opt_str (trade_id u) id) eqn:E; simpl.
  - intros [= ->]. now rewrite E.
  - rewrite E. exact IH.
Qed.

Lemma pending_after_save (self : TradeDatabase) now td :
  In (snd (save_trade_default self now td))
     (get_pending_trades (fst (save_trade_default self now td))).
Proof.
  unfold save_trade_default, save_trade, get_pending_trades; simpl.
  apply filter_In; split; [|reflexivity].
  apply in_or_app; right; now left.
Qed.

End StoreFacts.

(** C9: a trade saved with the default arguments is among the pending
    trades, under its trade id, with status pending and retry count 0; and
    [update_trade_status] on an id no stored record carries returns the store
    as it was (it is a plain function: nothing is raised). *)
Theorem C9_save_pending_update_absent :
  (forall (self : Database.TradeDatabase) (now : float) (td : Database.TradeData),
     let saved := Database.save_trade_default self now td in
     In (snd saved) (Database.get_pending_trades (fst saved))
     /\ Database.trade_id (snd saved) = Database.td_trade_id td
     /\ Database.status (snd saved) = Database.pending
     /\ Database.retry_count (snd saved) = 0)
  /\
  (forall (self : Database.TradeDatabase) (id : option string)
          (st : Database.Status) (rc : option Z),
     Database.has_trade self id = false ->
     Database.update_trade_status self id st rc = self).
Proof.
  split.
  - intros self now td saved. subst saved.
    split; [apply pending_after_save|]. now simpl.
  - intros. now apply update_absent.
Qed.

Lemma C9_save_pending_update_absent_witness :
  (let saved := Database.save_trade_default [Sample.other_doc] 1700000100 Sample.td_buy in
   In (snd saved) (Database.get_pending_trades (fst saved))
   /\ Database.trade_id (snd saved) = Some "dead"
   /\ Database.status (snd saved) = Database.pending
   /\ Database.retry_count (snd saved) = 0)
  /\ Database.update_trade_status [Sample.other_doc] (Some "dead") Database.failed (Some 2)
     = [Sample.other_doc].
Proof.
  split.
  - apply (proj1 C9_save_pending_update_absent [Sample.other_doc] 1700000100%float
             Sample.td_buy).
  - apply (proj2 C9_save_pending_update_absent [Sample.other_doc] (Some "dead")
             Database.failed (Some 2)).
    reflexivity.
Defined.

(** C10: when the first record carrying the id is [t], preceded by records
    under other ids, [update_trade_status] rewrites [t] alone: every record
    after it, those sharing the id included, is returned untouched. *)
Theorem C10_update_first_match_only :
  forall (pre post : Database.TradeDatabase) (t later : Database.TradeDoc)
         (id : option string) (st : Database.Status) (rc : option Z) (j : nat),
    Database.has_trade pre id = false ->
    Database.trade_id t = id ->
    nth_error post j = Some later ->
    Database.trade_id later = id ->
    let self' := Database.update_trade_status (pre ++ t :: post) id st rc in
    self' = pre ++ Database.dict_update t st rc :: post
    /\ nth_error self' (List.length pre + S j) = Some later
    /\ Database.status (Database.dict_update t st rc) = st.
Proof.
  intros pre post t later id st rc j Hpre Ht Hj _ self'. subst self'.
  rewrite update_first by (auto; apply eqb_opt_str_true; exact Ht).
  split; [reflexivity|]. split; [|reflexivity].
  rewrite nth_error_app2 by lia.
  replace (List.length pre + S j - List.length pre)%nat with (S j) by lia.
  exact Hj.
Qed.

Lemma C10_update_first_match_only_witness :
  let self' :=
    Database.update_trade_status
      ([Sample.other_doc] ++ Sample.doc (Some "buy") :: [Sample.doc (Some "buy")])
      (Some "dead") Database.failed (Some 4) in
  self' = [Sample.other_doc]
          ++ Database.dict_update (Sample.doc (Some "buy")) Database.failed (Some 4)
             :: [Sample.doc (Some "buy")]
  /\ nth_error self' (List.length [Sample.other_doc] + 1) = Some (Sample.doc (Some "buy"))
  /\ Database.status (Database.dict_update (Sample.doc (Some "buy")) Database.failed (Some 4))
     = Database.failed.
Proof.
  apply (C10_update_first_match_only [Sample.other_doc] [Sample.doc (Some "buy")]
           (Sample.doc (Some "buy")) (Sample.doc (Some "buy")) (Some "dead")
           Database.failed (Some 4) 0);
    reflexivity.
Defined.

(* ================================================================== *)
(** * Properties of the monitor *)
(* ================================================================== *)

Section MonitorFacts.
Import Database Monitor.

(** The decoder reads the target and the chain, never the store. *)
Lemma decode_event_with_db (self : TradeMonitor) (d : TradeDatabase) (ev : Event) :
  decode_event (with_db self d) ev = decode_event self ev.
Proof. reflexivity. Qed.

(** An event of another account takes the early return. *)
Lemma decode_event_other_account (self : TradeMonitor) (ev : Event) :
  String.eqb (Py.lower (maker ev)) (target_wallet self) = false ->
  String.eqb (Py.lower (taker ev)) (target_wallet self) = false ->
  decode_event self ev = Py.Ok None.
Proof.
  intros Hm Ht. unfold decode_event. now rewrite Hm, Ht.
Qed.

(** What the decoder builds for an event of the target account. *)
Lemma decode_event_matching (self : TradeMonitor) (ev : Event)
    (maker_amt taker_amt : float) (block_time : Z) :
  (String.eqb (Py.lower (maker ev)) (target_wallet self)
   || String.eqb (Py.lower (taker ev)) (target_wallet self))%bool = true ->
  Py.float_of_int (makerAmountFilled ev) = Py.Ok maker_amt ->
  Py.float_of_int (takerAmountFilled ev) = Py.Ok taker_amt ->
  get_block_timestamp self (blockNumber ev) = Py.Ok block_time ->
  let is_maker := String.eqb (Py.lower (maker ev)) (target_wallet self) in
  let leg := infer_side is_maker (makerAssetId ev) (takerAssetId ev) maker_amt taker_amt in
  let token_amt := snd (fst leg) in
  let usdc_amt := snd leg in
  decode_event self ev =
  Py.Ok (Some
    {| td_trade_id := Some (Py.hex (transactionHash ev));
       td_market := Some "unknown";
       td_asset_id :=
         Some (Py.str (if negb (makerAssetId ev =? 0)
                       then makerAssetId ev else takerAssetId ev));
       td_side := Some (fst (fst leg));
       td_price :=
         Some (if PrimFloat.ltb 0 token_amt
               then PrimFloat.div usdc_amt token_amt else 0%float);
       td_size := Some (PrimFloat.div token_amt 1e6);
       td_timestamp := Some block_time |}).
Proof.
  intros Hmatch Hma Hta Hblock is_maker leg token_amt usdc_amt.
  unfold decode_event.
  apply orb_true_iff in Hmatch.
  assert (Hguard :
    (negb (String.eqb (Py.lower (maker ev)) (target_wallet self))
     && negb (String.eqb (Py.lower (taker ev)) (target_wallet self)))%bool = false).
  { destruct Hmatch as [-> | ->]; simpl;
      [reflexivity | apply andb_false_r]. }
  rewrite Hguard, Hma, Hta. cbn [Py.bind].
  fold is_maker. fold leg.
  subst token_amt usdc_amt.
  destruct leg as [[side token] usdc]. cbn [fst snd].
  now rewrite Hblock.
Qed.

Context {W : Type} (trade_callback : TradeDoc -> W -> W).

Lemma handle_event_not_decoded (CONFIG : Config) (self : TradeMonitor)
    now created (ev : Event) (w : W) :
  decode_event self ev = Py.Ok None ->
  handle_event trade_callback CONFIG self now created ev w = (self, w).
Proof.
  intro H. unfold handle_event, handle_event_body. now rewrite H.
Qed.

Lemma handle_event_fresh (CONFIG : Config) (self : TradeMonitor)
    now created (ev : Event) (w : W) td block_time threshold :
  decode_event self ev = Py.Ok (Some td) ->
  td_timestamp td = Some block_time ->
  staleness_threshold CONFIG now = Py.Ok threshold ->
  Py.int_ge_float block_time threshold = true ->
  handle_event trade_callback CONFIG self now created ev w
  = (with_db self (fst (save_trade_default (db self) created td)),
     trade_callback (snd (save_trade_default (db self) created td)) w).
Proof.
  intros Hd Hts Hthr Hge. unfold handle_event, handle_event_body.
  rewrite Hd. cbn [Py.bind]. rewrite Hthr. cbn [Py.bind].
  now rewrite Hts, Hge.
Qed.

Lemma handle_event_stale (CONFIG : Config) (self : TradeMonitor)
    now created (ev : Event) (w : W) td block_time threshold :
  decode_event self ev = Py.Ok (Some td) ->
  td_timestamp td = Some block_time ->
  staleness_threshold CONFIG now = Py.Ok threshold ->
  Py.int_ge_float block_time threshold = false ->
  handle_event trade_callback CONFIG self now created ev w = (self, w).
Proof.
  intros Hd Hts Hthr Hge. unfold handle_event, handle_event_body.
  rewrite Hd. cbn [Py.bind]. rewrite Hthr. cbn [Py.bind].
  now rewrite Hts, Hge.
Qed.

End MonitorFacts.

(** [i < f] and [i >= f] exclude each other. *)
Lemma int_lt_float_not_ge (i : Z) (f : float) :
  Py.int_lt_float i f = true -> Py.int_ge_float i f = false.
Proof.
  unfold Py.int_lt_float, Py.int_ge_float.
  destruct (Py.compare_int_float i f) as [[| |]|]; intro H;
    try discriminate; reflexivity.
Qed.

(** A float that compares equal to zero is one of the two zeros. *)
Lemma float_eqb_zero (t : float) :
  PrimFloat.eqb t 0 = true -> t = 0%float \/ t = (-0)%float.
Proof.
  intro H. rewrite eqb_spec in H.
  rewrite <- (SF2Prim_Prim2SF t).
  destruct (Prim2SF t) as [[|]|[|]| |[|] m e]; try discriminate H.
  - right. reflexivity.
  - left. reflexivity.
Qed.

(** C4: for an event of the target account with one cash leg, a positive
    asset-leg amount and amounts in the binary64 range, the decoded intent has
    price = cash amount / asset amount, size = asset amount / 1e6 and the side
    the specification derives from the target's role and the position of the
    cash leg; an event of another account decodes to nothing and leaves the
    store and the callback's world untouched. *)
Theorem C4_decoded_intent :
  (forall (self : Monitor.TradeMonitor) (account : string) (ev : Monitor.Event)
          (token_amt usdc_amt : float) (block_time : Z),
     Monitor.target_wallet self = Py.lower account ->
     Spec.matches account ev = true ->
     Spec.one_cash_leg ev = true ->
     Py.float_of_int (Spec.asset_leg_amount ev) = Py.Ok token_amt ->
     Py.float_of_int (Spec.cash_leg_amount ev) = Py.Ok usdc_amt ->
     PrimFloat.ltb 0 token_amt = true ->
     Monitor.get_block_timestamp self (Monitor.blockNumber ev) = Py.Ok block_time ->
     exists td : Database.TradeData,
       Monitor.decode_event self ev = Py.Ok (Some td)
       /\ Database.td_price td = Some (PrimFloat.div usdc_amt token_amt)
       /\ Database.td_size td = Some (PrimFloat.div token_amt 1e6)
       /\ Database.td_side td =
            Some (Spec.expected_side (Spec.is_maker account ev)
                                     (Spec.cash_leg_is_maker_asset ev))
       /\ Database.td_asset_id td = Some (Py.str (Spec.asset_leg_id ev))
       /\ Database.td_trade_id td = Some (Py.hex (Monitor.transactionHash ev))
       /\ Database.td_timestamp td = Some block_time)
  /\
  (forall (W : Type) (trade_callback : Database.TradeDoc -> W -> W)
          (CONFIG : Config) (self : Monitor.TradeMonitor) (account : string)
          (ev : Monitor.Event) (now created : float) (w : W),
     Monitor.target_wallet self = Py.lower account ->
     Spec.matches account ev = false ->
     Monitor.decode_event self ev = Py.Ok None
     /\ Monitor.handle_event trade_callback CONFIG self now created ev w = (self, w)).
Proof.
  split.
  - intros self account ev token_amt usdc_amt block_time
           Htarget Hmatch Hone Htok Husdc Hpos Hblock.
    unfold Spec.matches in Hmatch. rewrite <- Htarget in Hmatch.
    unfold Spec.expected_side, Spec.is_maker, Spec.cash_leg_is_maker_asset,
           Spec.asset_leg_id.
    unfold Spec.one_cash_leg in Hone.
    unfold Spec.asset_leg_amount in Htok. unfold Spec.cash_leg_amount in Husdc.
    rewrite <- Htarget.
    destruct (Monitor.makerAssetId ev =? 0) eqn:Em;
      destruct (Monitor.takerAssetId ev =? 0) eqn:Et;
      try discriminate Hone.
    + eexists. split.
      * apply (decode_event_matching self ev usdc_amt token_amt block_time);
          assumption.
      * unfold Monitor.infer_side. rewrite Em, Et.
        destruct (String.eqb (Py.lower (Monitor.maker ev)) (Monitor.target_wallet self));
          cbn [fst snd negb Bool.eqb Database.td_price Database.td_size
               Database.td_side Database.td_asset_id Database.td_trade_id
               Database.td_timestamp];
          rewrite Hpos; repeat split; reflexivity.
    + eexists. split.
      * apply (decode_event_matching self ev token_amt usdc_amt block_time);
          assumption.
      * unfold Monitor.infer_side. rewrite Em, Et.
        destruct (String.eqb (Py.lower (Monitor.maker ev)) (Monitor.target_wallet self));
          cbn [fst snd negb Bool.eqb Database.td_price Database.td_size
               Database.td_side Database.td_asset_id Database.td_trade_id
               Database.td_timestamp];
          rewrite Hpos; repeat split; reflexivity.
  - intros W cb CONFIG self account ev now created w Htarget Hmatch.
    unfold Spec.matches in Hmatch. rewrite <- Htarget in Hmatch.
    apply orb_false_iff in Hmatch as [Hm Ht].
    assert (Hd : Monitor.decode_event self ev = Py.Ok None)
      by now apply decode_event_other_account.
    split; [exact Hd|]. now apply handle_event_not_decoded.
Qed.

Lemma C4_decoded_intent_witness :
  (exists td : Database.TradeData,
     Monitor.decode_event Sample.mon Sample.ev_buy = Py.Ok (Some td)
     /\ Database.td_price td = Some (PrimFloat.div 65000000 100000000)
     /\ Database.td_size td = Some (PrimFloat.div 100000000 1e6)
     /\ Database.td_side td = Some "buy"
     /\ Database.td_asset_id td = Some "42"
     /\ Database.td_trade_id td = Some "dead"
     /\ Database.td_timestamp td = Some 1700000000)
  /\
  (Monitor.decode_event Sample.mon Sample.ev_other = Py.Ok None
   /\ Monitor.handle_event Monitor.recording_callback Sample.cfg Sample.mon
        1700000100 1700000100 Sample.ev_other []
      = (Sample.mon, [])).
Proof.
  split.
  - apply (proj1 C4_decoded_intent Sample.mon "0xAbC" Sample.ev_buy
             100000000%float 65000000%float 1700000000);
      vm_compute; reflexivity.
  - apply (proj2 C4_decoded_intent (list Database.TradeDoc)
             Monitor.recording_callback Sample.cfg Sample.mon "0xAbC"
             Sample.ev_other 1700000100%float 1700000100%float []);
      vm_compute; reflexivity.
Defined.

(** C5: an event that decodes and whose block time is strictly below
    [now - TOO_OLD_TIMESTAMP] changes neither the store nor the callback's
    world; one whose block time is at or above it is saved as pending and
    handed to the callback. *)
Theorem C5_staleness_filter :
  forall (W : Type) (trade_callback : Database.TradeDoc -> W -> W)
         (CONFIG : Config) (self : Monitor.TradeMonitor) (ev : Monitor.Event)
         (now created : float) (w : W)
         (td : Database.TradeData) (block_time : Z) (threshold : float),
    Monitor.decode_event self ev = Py.Ok (Some td) ->
    Database.td_timestamp td = Some block_time ->
    Monitor.staleness_threshold CONFIG now = Py.Ok threshold ->
    (Py.int_lt_float block_time threshold = true ->
     Monitor.handle_event trade_callback CONFIG self now created ev w = (self, w))
    /\
    (Py.int_ge_float block_time threshold = true ->
     let saved := Database.save_trade_default (Monitor.db self) created td in
     Monitor.handle_event trade_callback CONFIG self now created ev w
     = (Monitor.with_db self (Monitor.db self ++ [snd saved]),
        trade_callback (snd saved) w)
     /\ Database.status (snd saved) = Database.pending
     /\ Database.trade_id (snd saved) = Database.td_trade_id td).
Proof.
  intros W cb CONFIG self ev now created w td block_time threshold Hd Hts Hthr.
  split.
  - intro Hlt. apply int_lt_float_not_ge in Hlt.
    now apply (handle_event_stale cb CONFIG self now created ev w td block_time threshold).
  - intros Hge saved. subst saved.
    split; [|split; reflexivity].
    now apply (handle_event_fresh cb CONFIG self now created ev w td block_time threshold).
Qed.

Lemma C5_staleness_filter_witness :
  Monitor.handle_event Monitor.recording_callback Sample.cfg Sample.mon
    1700000301 1700000301 Sample.ev_buy []
  = (Sample.mon, [])
  /\
  (Monitor.handle_event Monitor.recording_callback Sample.cfg Sample.mon
     1700000300 1700000300 Sample.ev_buy []
   = (Monitor.with_db Sample.mon
        [snd (Database.save_trade_default [] 1700000300 Sample.td_buy)],
      [snd (Database.save_trade_default [] 1700000300 Sample.td_buy)])
   /\ Database.status (snd (Database.save_trade_default [] 1700000300 Sample.td_buy))
      = Database.pending
   /\ Database.trade_id (snd (Database.save_trade_default [] 1700000300 Sample.td_buy))
      = Some "dead").
Proof.
  split.
  - apply (proj1 (C5_staleness_filter (list Database.TradeDoc)
             Monitor.recording_callback Sample.cfg Sample.mon Sample.ev_buy
             1700000301%float 1700000301%float [] Sample.td_buy 1700000000
             (PrimFloat.sub 1700000301 300) eq_refl eq_refl eq_refl)).
    reflexivity.
  - apply (proj2 (C5_staleness_filter (list Database.TradeDoc)
             Monitor.recording_callback Sample.cfg Sample.mon Sample.ev_buy
             1700000300%float 1700000300%float [] Sample.td_buy 1700000000
             (PrimFloat.sub 1700000300 300) eq_refl eq_refl eq_refl)).
    reflexivity.
Defined.

(** The trade id of a decoded intent is the hex text of the transaction hash. *)
Lemma decode_event_trade_id (self : Monitor.TradeMonitor) (ev : Monitor.Event)
    (td : Database.TradeData) :
  Monitor.decode_event self ev = Py.Ok (Some td) ->
  Database.td_trade_id td = Some (Py.hex (Monitor.transactionHash ev)).
Proof.
  unfold Monitor.decode_event.
  destruct (negb _ && negb _)%bool; [discriminate|].
  destruct (Py.float_of_int (Monitor.makerAmountFilled ev)); [|discriminate].
  destruct (Py.float_of_int (Monitor.takerAmountFilled ev)); [|discriminate].
  cbn [Py.bind].
  destruct (Monitor.infer_side _ _ _ _ _) as [[sd tok] usdc].
  destruct (Monitor.get_block_timestamp self (Monitor.blockNumber ev));
    cbn [Py.bind]; [|discriminate].
  intros [= <-]. reflexivity.
Qed.

(** C1 (as the code has it): a fresh event of the target account whose
    computed [token_amt] equals 0 is not rejected: the guard on the division
    sets the price to 0, the size is a zero, and the intent is saved as
    pending and handed to the callback. *)
Theorem C1_zero_token_amount_is_persisted :
  forall (W : Type) (trade_callback : Database.TradeDoc -> W -> W)
         (CONFIG : Config) (self : Monitor.TradeMonitor) (ev : Monitor.Event)
         (now created : float) (w : W)
         (maker_amt taker_amt : float) (block_time : Z) (threshold : float),
    (String.eqb (Py.lower (Monitor.maker ev)) (Monitor.target_wallet self)
     || String.eqb (Py.lower (Monitor.taker ev)) (Monitor.target_wallet self))%bool = true ->
    Py.float_of_int (Monitor.makerAmountFilled ev) = Py.Ok maker_amt ->
    Py.float_of_int (Monitor.takerAmountFilled ev) = Py.Ok taker_amt ->
    PrimFloat.eqb
      (snd (fst (Monitor.infer_side
                   (String.eqb (Py.lower (Monitor.maker ev)) (Monitor.target_wallet self))
                   (Monitor.makerAssetId ev) (Monitor.takerAssetId ev)
                   maker_amt taker_amt)))
      0 = true ->
    Monitor.get_block_timestamp self (Monitor.blockNumber ev) = Py.Ok block_time ->
    Monitor.staleness_threshold CONFIG now = Py.Ok threshold ->
    Py.int_ge_float block_time threshold = true ->
    exists (trade_doc : Database.TradeDoc) (sz : float),
      Monitor.handle_event trade_callback CONFIG self now created ev w
      = (Monitor.with_db self (Monitor.db self ++ [trade_doc]),
         trade_callback trade_doc w)
      /\ Database.price trade_doc = Some 0%float
      /\ Database.size trade_doc = Some sz
      /\ PrimFloat.eqb sz 0 = true
      /\ Database.status trade_doc = Database.pending.
Proof.
  intros W cb CONFIG self ev now created w maker_amt taker_amt block_time threshold
         Hmatch Hma Hta Hzero Hblock Hthr Hge.
  pose proof (decode_event_matching self ev maker_amt taker_amt block_time
                Hmatch Hma Hta Hblock) as Hd.
  cbv zeta in Hd.
  set (token_amt := snd (fst (Monitor.infer_side _ _ _ _ _))) in *.
  assert (Hguard : PrimFloat.ltb 0 token_amt = false
                   /\ PrimFloat.eqb (PrimFloat.div token_amt 1e6) 0 = true).
  { destruct (float_eqb_zero token_amt Hzero) as [-> | ->]; split; reflexivity. }
  destruct Hguard as [Hlt Hsz].
  rewrite Hlt in Hd.
  eexists. exists (PrimFloat.div token_amt 1e6).
  split.
  - exact (handle_event_fresh cb CONFIG self now created ev w _ block_time threshold
             Hd eq_refl Hthr Hge).
  - repeat split. exact Hsz.
Qed.

Lemma C1_zero_token_amount_is_persisted_witness :
  exists (trade_doc : Database.TradeDoc) (sz : float),
    Monitor.handle_event Monitor.recording_callback Sample.cfg Sample.mon
      1700000100 1700000100 Sample.ev_zero []
    = (Monitor.with_db Sample.mon (Monitor.db Sample.mon ++ [trade_doc]),
       Monitor.recording_callback trade_doc [])
    /\ Database.price trade_doc = Some 0%float
    /\ Database.size trade_doc = Some sz
    /\ PrimFloat.eqb sz 0 = true
    /\ Database.status trade_doc = Database.pending.
Proof.
  apply (C1_zero_token_amount_is_persisted (list Database.TradeDoc)
           Monitor.recording_callback Sample.cfg Sample.mon Sample.ev_zero
           1700000100%float 1700000100%float [] 65000000%float 0%float
           1700000000 (PrimFloat.sub 1700000100 300));
    reflexivity.
Defined.

(** C1, counterexample to rejection: [ev_zero] is an event of the target
    account whose
    asset-leg amount is 0, and handling it stores an intent of size 0 and
    calls the callback with it. *)
Lemma C1_counterexample :
  Spec.matches "0xAbC" Sample.ev_zero = true
  /\ Spec.asset_leg_amount Sample.ev_zero = 0
  /\ exists trade_doc : Database.TradeDoc,
       Monitor.handle_event Monitor.recording_callback Sample.cfg Sample.mon
         1700000100 1700000100 Sample.ev_zero []
       = (Monitor.with_db Sample.mon [trade_doc], [trade_doc])
       /\ Database.size trade_doc = Some 0%float
       /\ Database.status trade_doc = Database.pending.
Proof.
  split; [reflexivity|]. split; [reflexivity|].
  eexists. split; [vm_compute; reflexivity|]. split; reflexivity.
Qed.

(** C2 (as the code has it): neither the monitor nor the store looks for an
    earlier record under the same trade id.  Two fresh, decodable events that
    carry the same transaction hash leave two records under the one trade id,
    and the callback is called once for each. *)
Theorem C2_same_hash_saved_and_dispatched_twice :
  forall (W : Type) (trade_callback : Database.TradeDoc -> W -> W)
         (CONFIG : Config) (self : Monitor.TradeMonitor)
         (a1 a2 : Monitor.Arrival) (w : W)
         (td1 td2 : Database.TradeData) (t1 t2 : Z) (thr1 thr2 : float),
    Monitor.transactionHash (Monitor.arrived a1)
    = Monitor.transactionHash (Monitor.arrived a2) ->
    Monitor.decode_event self (Monitor.arrived a1) = Py.Ok (Some td1) ->
    Database.td_timestamp td1 = Some t1 ->
    Monitor.staleness_threshold CONFIG (Monitor.checked_at a1) = Py.Ok thr1 ->
    Py.int_ge_float t1 thr1 = true ->
    Monitor.decode_event self (Monitor.arrived a2) = Py.Ok (Some td2) ->
    Database.td_timestamp td2 = Some t2 ->
    Monitor.staleness_threshold CONFIG (Monitor.checked_at a2) = Py.Ok thr2 ->
    Py.int_ge_float t2 thr2 = true ->
    exists d1 d2 : Database.TradeDoc,
      Monitor.handle_events trade_callback CONFIG self [a1; a2] w
      = (Monitor.with_db self (Monitor.db self ++ [d1; d2]),
         trade_callback d2 (trade_callback d1 w))
      /\ Database.trade_id d1 = Some (Py.hex (Monitor.transactionHash (Monitor.arrived a1)))
      /\ Database.trade_id d2 = Database.trade_id d1
      /\ Database.status d1 = Database.pending
      /\ Database.status d2 = Database.pending.
Proof.
  intros W cb CONFIG self a1 a2 w td1 td2 t1 t2 thr1 thr2
         Hhash Hd1 Ht1 Hthr1 Hge1 Hd2 Ht2 Hthr2 Hge2.
  exists (snd (Database.save_trade_default (Monitor.db self) (Monitor.saved_at a1) td1)).
  eexists.
  split.
  - cbn [Monitor.handle_events].
    rewrite (handle_event_fresh cb CONFIG self _ _ _ w td1 t1 thr1 Hd1 Ht1 Hthr1 Hge1).
    rewrite <- (decode_event_with_db self
                  (fst (Database.save_trade_default (Monitor.db self)
                          (Monitor.saved_at a1) td1))) in Hd2.
    rewrite (handle_event_fresh cb CONFIG _ _ _ _ _ td2 t2 thr2 Hd2 Ht2 Hthr2 Hge2).
    cbn [Database.save_trade_default Database.save_trade fst snd
         Monitor.with_db Monitor.db Monitor.target_wallet
         Monitor.get_block_timestamp].
    rewrite <- app_assoc. reflexivity.
  - cbn [Database.save_trade_default Database.save_trade snd Database.trade_id
         Database.status].
    rewrite (decode_event_trade_id _ _ _ Hd1).
    rewrite (decode_event_trade_id _ _ _ Hd2).
    rewrite Hhash. repeat split; reflexivity.
Qed.

Lemma C2_same_hash_saved_and_dispatched_twice_witness :
  exists d1 d2 : Database.TradeDoc,
    Monitor.handle_events Monitor.recording_callback Sample.cfg Sample.mon
      [Sample.arrival; Sample.arrival] []
    = (Monitor.with_db Sample.mon (Monitor.db Sample.mon ++ [d1; d2]),
       Monitor.recording_callback d2 (Monitor.recording_callback d1 []))
    /\ Database.trade_id d1 = Some (Py.hex [Byte.xde; Byte.xad])
    /\ Database.trade_id d2 = Database.trade_id d1
    /\ Database.status d1 = Database.pending
    /\ Database.status d2 = Database.pending.
Proof.
  apply (C2_same_hash_saved_and_dispatched_twice (list Database.TradeDoc)
           Monitor.recording_callback Sample.cfg Sample.mon
           Sample.arrival Sample.arrival [] Sample.td_buy Sample.td_buy
           1700000000 1700000000
           (PrimFloat.sub 1700000100 300) (PrimFloat.sub 1700000100 300));
    reflexivity.
Defined.

(** C2, counterexample to at-most-once: the same event delivered twice
    leaves two stored
    records under the trade id ["dead"], and the executor wired to the monitor
    by [main] hands two orders to the venue. *)
Lemma C2_counterexample :
  let bot :=
    Main.on_events Sample.cfg
      (Main.start Sample.cfg Sample.chain (Some Sample.venue_ok))
      [Sample.arrival; Sample.arrival] in
  map Database.trade_id (Monitor.db (Main.monitor bot)) = [Some "dead"; Some "dead"]
  /\ List.length (Executor.submitted (Main.executor bot)) = 2%nat
  /\ map Database.trade_id
       (snd (Monitor.handle_events Monitor.recording_callback Sample.cfg Sample.mon
               [Sample.arrival; Sample.arrival] []))
     = [Some "dead"; Some "dead"].
Proof.
  vm_compute. repeat split; reflexivity.
Qed.

(* ================================================================== *)
(** * Properties of the executor *)
(* ================================================================== *)

Section ExecutorFacts.
Import Database Executor.

Lemma range_split (n : nat) :
  Py.range (Z.of_nat n + 1) = map Z.of_nat (seq 0 n) ++ [Z.of_nat n].
Proof.
  unfold Py.range.
  replace (Z.to_nat (Z.of_nat n + 1)) with (S n) by lia.
  now rewrite seq_S, map_app.
Qed.

Lemma range_last (n : Z) : 0 <= n -> In n (Py.range (n + 1)).
Proof.
  intro H. unfold Py.range. apply in_map_iff.
  exists (Z.to_nat n). split; [lia|]. apply in_seq. lia.
Qed.

Lemma retried_submitted order_args n self :
  submitted (retried order_args n self) = submitted self ++ repeat order_args n.
Proof.
  revert self. induction n as [|n IH]; intro self; simpl.
  - now rewrite app_nil_r.
  - rewrite IH. simpl. now rewrite <- app_assoc.
Qed.

Lemma retried_frame order_args n self :
  db (retried order_args n self) = db self
  /\ client (retried order_args n self) = client self
  /\ status_writes (retried order_args n self) = status_writes self
  /\ slept (retried order_args n self) = slept self + Z.of_nat n.
Proof.
  revert self. induction n as [|n IH]; intro self.
  - simpl. repeat split. lia.
  - cbn [retried]. destruct (IH (sleep1 (submit self order_args))) as (H1 & H2 & H3 & H4).
    rewrite H1, H2, H3, H4. simpl. repeat split. lia.
Qed.

(** Once a status is written for an id the store holds, it is the stored
    status of that id. *)
Lemma stored_status_written (self : TradeExecutor) id st :
  has_trade (db self) id = true ->
  stored_status (write_status self id st) id = Some st.
Proof.
  intro Hstored. unfold stored_status. cbn [write_status db].
  destruct (find_trade (db self) id) as [t|] eqn:Hfind.
  - now rewrite (find_after_update _ _ _ _ _ Hfind).
  - unfold find_trade in Hfind. unfold has_trade in Hstored.
    apply existsb_exists in Hstored as (t & Hin & Ht).
    now rewrite (find_none _ _ Hfind t Hin) in Ht.
Qed.

Variable CONFIG : Config.
Variable trade_doc : TradeDoc.
Variable sc : Side.

Let order_args := make_order trade_doc sc.

(** While the venue keeps raising and the attempt number is below the
    limit, the loop sleeps and goes on. *)
Lemma for_attempts_retry (venue : ClobClient) (n k : nat) (rest : list Z)
    (self : TradeExecutor) :
  client self = Some venue ->
  (forall j, (j < n)%nat ->
     exists e, venue (submitted self ++ repeat order_args j) order_args = Py.Raise e) ->
  Z.of_nat (k + n) <= RETRY_LIMIT CONFIG ->
  for_attempts CONFIG trade_doc sc (map Z.of_nat (seq k n) ++ rest) self
  = for_attempts CONFIG trade_doc sc rest (retried order_args n self).
Proof.
  revert k self. induction n as [|n IH]; intros k self Hc Hfail Hk.
  - reflexivity.
  - cbn [seq map app for_attempts retried].
    unfold attempt_once. rewrite Hc.
    destruct (Hfail 0%nat ltac:(lia)) as [e He].
    cbn [repeat] in He. rewrite app_nil_r in He.
    fold order_args. rewrite He.
    replace (Z.of_nat k <? RETRY_LIMIT CONFIG) with true
      by (symmetry; apply Z.ltb_lt; lia).
    apply IH.
    + exact Hc.
    + intros j Hj. destruct (Hfail (S j) ltac:(lia)) as [e' He'].
      exists e'. cbn [submit sleep1 submitted]. rewrite <- app_assoc. exact He'.
    + lia.
Qed.

(** A loop that contains an attempt at or beyond the limit returns, after
    one call of [update_trade_status] with a terminal status. *)
Lemma for_attempts_terminal (attempts : list Z) (self : TradeExecutor) :
  Exists (fun a => RETRY_LIMIT CONFIG <= a) attempts ->
  exists st : Status,
    (st = success \/ st = failed)
    /\ status_writes (fst (for_attempts CONFIG trade_doc sc attempts self))
       = status_writes self ++ [(trade_id trade_doc, st)]
    /\ db (fst (for_attempts CONFIG trade_doc sc attempts self))
       = update_trade_status (db self) (trade_id trade_doc) st None
    /\ snd (for_attempts CONFIG trade_doc sc attempts self) <> ReturnedNone.
Proof.
  revert self. induction attempts as [|a rest IH]; intros self Hex.
  - inversion Hex.
  - cbn [for_attempts]. unfold attempt_once.
    destruct (client self) as [venue|].
    + destruct (venue (submitted self) (make_order trade_doc sc)) as [resp|e].
      * exists success. cbn. repeat split; auto; discriminate.
      * destruct (a <? RETRY_LIMIT CONFIG) eqn:Ea.
        -- apply Z.ltb_lt in Ea.
           inversion Hex as [? ? Hhere | ? ? Hlater]; subst; [lia|].
           destruct (IH (sleep1 (submit self (make_order trade_doc sc))) Hlater)
             as (st & Hst & Hw & Hdb & Hret).
           exists st. repeat split; assumption.
        -- exists failed. cbn. repeat split; auto; discriminate.
    + exists success. cbn. repeat split; auto; discriminate.
Qed.

(** At every loop head the store and the log of status writes are those
    the loop started with. *)
Lemma loop_head_frame (l l' : list Z) (s s' : TradeExecutor) :
  loop_head CONFIG trade_doc sc l s l' s' ->
  db s' = db s /\ status_writes s' = status_writes s.
Proof.
  induction 1 as [|a rest s s1 l' s' Hstep _ IH]; [now split|].
  unfold attempt_once in Hstep.
  destruct (client s) as [venue|]; [|discriminate].
  destruct (venue (submitted s) (make_order trade_doc sc)); [discriminate|].
  destruct (a <? RETRY_LIMIT CONFIG); [|discriminate].
  injection Hstep as <-. exact IH.
Qed.

(** The loop reads the side only through [sc]. *)
Lemma for_attempts_with_side (s : option string) (attempts : list Z)
    (self : TradeExecutor) :
  for_attempts CONFIG (with_side trade_doc s) sc attempts self
  = for_attempts CONFIG trade_doc sc attempts self.
Proof.
  revert self. induction attempts as [|a rest IH]; intro self; [reflexivity|].
  cbn [for_attempts].
  change (attempt_once CONFIG (with_side trade_doc s) sc a self)
    with (attempt_once CONFIG trade_doc sc a self).
  destruct (attempt_once CONFIG trade_doc sc a self) as [self' [o|]];
    [reflexivity | apply IH].
Qed.

End ExecutorFacts.

(** C6: with a venue whose every submission raises (and a retry limit that
    is not negative), [execute_trade] hands the order to the venue exactly
    [RETRY_LIMIT + 1] times, then writes the status failed, so that the stored
    status of the intent is failed, and returns the failure outcome with the
    text of the error raised by the last attempt. *)
Theorem C6_always_failing_venue :
  forall (CONFIG : Config) (self : Executor.TradeExecutor)
         (trade_doc : Database.TradeDoc) (venue : Executor.ClobClient)
         (sc : Executor.Side),
    0 <= RETRY_LIMIT CONFIG ->
    Executor.client self = Some venue ->
    Executor.side_constant trade_doc = Py.Ok sc ->
    Database.has_trade (Executor.db self) (Database.trade_id trade_doc) = true ->
    (forall history order, exists e, venue history order = Py.Raise e) ->
    let order_args := Executor.make_order trade_doc sc in
    let self' := fst (Executor.execute_trade CONFIG self trade_doc) in
    Executor.submitted self'
    = Executor.submitted self
      ++ repeat order_args (Z.to_nat (RETRY_LIMIT CONFIG + 1))
    /\ (exists last_error : Py.exn,
          venue (Executor.submitted self
                 ++ repeat order_args (Z.to_nat (RETRY_LIMIT CONFIG)))
                order_args = Py.Raise last_error
          /\ snd (Executor.execute_trade CONFIG self trade_doc)
             = Py.Ok (Executor.Failed (Py.str_exn last_error)))
    /\ Executor.stored_status self' (Database.trade_id trade_doc)
       = Some Database.failed
    /\ Executor.status_writes self'
       = Executor.status_writes self
         ++ [(Database.trade_id trade_doc, Database.failed)].
Proof.
  intros CONFIG self trade_doc venue sc Hlimit Hclient Hside Hstored Hfail
         order_args self'.
  set (n := Z.to_nat (RETRY_LIMIT CONFIG)).
  assert (Hn : RETRY_LIMIT CONFIG = Z.of_nat n) by (subst n; lia).
  destruct (Hfail (Executor.submitted self ++ repeat order_args n) order_args)
    as [last_error Hlast].
  destruct (retried_frame order_args n self) as (Hdb & Hcl & Hw & _).
  assert (Hrun :
    Executor.execute_trade CONFIG self trade_doc
    = (Executor.write_status
         (Executor.submit (Executor.retried order_args n self) order_args)
         (Database.trade_id trade_doc) Database.failed,
       Py.Ok (Executor.Failed (Py.str_exn last_error)))).
  { unfold Executor.execute_trade. rewrite Hside.
    rewrite Hn at 1. rewrite range_split.
    rewrite (for_attempts_retry CONFIG trade_doc sc venue n 0 _ self Hclient)
      by (try lia; intros; apply Hfail).
    fold order_args.
    cbn [Executor.for_attempts]. unfold Executor.attempt_once.
    rewrite Hcl, Hclient, retried_submitted. fold order_args. rewrite Hlast.
    replace (Z.of_nat n <? RETRY_LIMIT CONFIG) with false
      by (symmetry; apply Z.ltb_ge; lia).
    reflexivity. }
  subst self'. rewrite Hrun. cbn [fst snd].
  rewrite stored_status_written by (cbn [Executor.submit Executor.db]; now rewrite Hdb).
  cbn [Executor.write_status Executor.submit Executor.submitted Executor.status_writes].
  rewrite retried_submitted, Hw.
  replace (Z.to_nat (RETRY_LIMIT CONFIG + 1)) with (S n) by lia.
  split; [|split; [|split]]; try reflexivity.
  - rewrite <- app_assoc. f_equal. symmetry. apply (repeat_cons n order_args).
  - exists last_error. split; [exact Hlast | reflexivity].
Qed.

Lemma C6_always_failing_venue_witness :
  let order_args := Executor.make_order (Sample.doc (Some "buy")) Executor.BUY in
  let self' :=
    fst (Executor.execute_trade Sample.cfg (Sample.exec (Some Sample.venue_down))
           (Sample.doc (Some "buy"))) in
  Executor.submitted self' = [] ++ repeat order_args (Z.to_nat (3 + 1))
  /\ (exists last_error : Py.exn,
        Sample.venue_down ([] ++ repeat order_args (Z.to_nat 3)) order_args
        = Py.Raise last_error
        /\ snd (Executor.execute_trade Sample.cfg (Sample.exec (Some Sample.venue_down))
                  (Sample.doc (Some "buy")))
           = Py.Ok (Executor.Failed (Py.str_exn last_error)))
  /\ Executor.stored_status self' (Some "dead") = Some Database.failed
  /\ Executor.status_writes self' = [] ++ [(Some "dead", Database.failed)].
Proof.
  apply (C6_always_failing_venue Sample.cfg (Sample.exec (Some Sample.venue_down))
           (Sample.doc (Some "buy")) Sample.venue_down Executor.BUY).
  - simpl. lia.
  - reflexivity.
  - reflexivity.
  - reflexivity.
  - intros history order. exists (Py.VenueError "503"). reflexivity.
Defined.

(** C7: with a venue that raises on the first [RETRY_LIMIT] submissions of
    the order and answers the next one, [execute_trade] returns the venue's
    response after [RETRY_LIMIT + 1] submissions and the stored status of the
    intent is success. *)
Theorem C7_venue_recovers_on_last_attempt :
  forall (CONFIG : Config) (self : Executor.TradeExecutor)
         (trade_doc : Database.TradeDoc) (venue : Executor.ClobClient)
         (sc : Executor.Side) (resp : string),
    0 <= RETRY_LIMIT CONFIG ->
    Executor.client self = Some venue ->
    Executor.side_constant trade_doc = Py.Ok sc ->
    Database.has_trade (Executor.db self) (Database.trade_id trade_doc) = true ->
    (forall j : nat, (j < Z.to_nat (RETRY_LIMIT CONFIG))%nat ->
       exists e,
         venue (Executor.submitted self ++ repeat (Executor.make_order trade_doc sc) j)
               (Executor.make_order trade_doc sc) = Py.Raise e) ->
    venue (Executor.submitted self
           ++ repeat (Executor.make_order trade_doc sc) (Z.to_nat (RETRY_LIMIT CONFIG)))
          (Executor.make_order trade_doc sc) = Py.Ok resp ->
    snd (Executor.execute_trade CONFIG self trade_doc)
    = Py.Ok (Executor.Response resp)
    /\ Executor.stored_status (fst (Executor.execute_trade CONFIG self trade_doc))
         (Database.trade_id trade_doc) = Some Database.success
    /\ Executor.submitted (fst (Executor.execute_trade CONFIG self trade_doc))
       = Executor.submitted self
         ++ repeat (Executor.make_order trade_doc sc) (Z.to_nat (RETRY_LIMIT CONFIG + 1))
    /\ Executor.status_writes (fst (Executor.execute_trade CONFIG self trade_doc))
       = Executor.status_writes self
         ++ [(Database.trade_id trade_doc, Database.success)].
Proof.
  intros CONFIG self trade_doc venue sc resp Hlimit Hclient Hside Hstored Hfail Hok.
  set (n := Z.to_nat (RETRY_LIMIT CONFIG)) in *.
  assert (Hn : RETRY_LIMIT CONFIG = Z.of_nat n) by (subst n; lia).
  set (order_args := Executor.make_order trade_doc sc) in *.
  destruct (retried_frame order_args n self) as (Hdb & Hcl & Hw & _).
  assert (Hrun :
    Executor.execute_trade CONFIG self trade_doc
    = (Executor.write_status
         (Executor.submit (Executor.retried order_args n self) order_args)
         (Database.trade_id trade_doc) Database.success,
       Py.Ok (Executor.Response resp))).
  { unfold Executor.execute_trade. rewrite Hside.
    rewrite Hn at 1. rewrite range_split.
    rewrite (for_attempts_retry CONFIG trade_doc sc venue n 0 _ self Hclient)
      by (try lia; exact Hfail).
    fold order_args.
    cbn [Executor.for_attempts]. unfold Executor.attempt_once.
    rewrite Hcl, Hclient, retried_submitted. fold order_args. rewrite Hok.
    reflexivity. }
  rewrite Hrun. cbn [fst snd].
  rewrite stored_status_written by (cbn [Executor.submit Executor.db]; now rewrite Hdb).
  cbn [Executor.write_status Executor.submit Executor.submitted Executor.status_writes].
  rewrite retried_submitted, Hw.
  replace (Z.to_nat (RETRY_LIMIT CONFIG + 1)) with (S n) by lia.
  repeat split.
  rewrite <- app_assoc. f_equal. symmetry. apply (repeat_cons n order_args).
Qed.

Lemma C7_venue_recovers_on_last_attempt_witness :
  snd (Executor.execute_trade Sample.cfg (Sample.exec (Some (Sample.venue_up_after 3)))
         (Sample.doc (Some "buy")))
  = Py.Ok (Executor.Response "matched")
  /\ Executor.stored_status
       (fst (Executor.execute_trade Sample.cfg
               (Sample.exec (Some (Sample.venue_up_after 3))) (Sample.doc (Some "buy"))))
       (Some "dead") = Some Database.success
  /\ Executor.submitted
       (fst (Executor.execute_trade Sample.cfg
               (Sample.exec (Some (Sample.venue_up_after 3))) (Sample.doc (Some "buy"))))
     = [] ++ repeat (Executor.make_order (Sample.doc (Some "buy")) Executor.BUY)
                    (Z.to_nat (3 + 1))
  /\ Executor.status_writes
       (fst (Executor.execute_trade Sample.cfg
               (Sample.exec (Some (Sample.venue_up_after 3))) (Sample.doc (Some "buy"))))
     = [] ++ [(Some "dead", Database.success)].
Proof.
  apply (C7_venue_recovers_on_last_attempt Sample.cfg
           (Sample.exec (Some (Sample.venue_up_after 3))) (Sample.doc (Some "buy"))
           (Sample.venue_up_after 3) Executor.BUY "matched").
  - simpl. lia.
  - reflexivity.
  - reflexivity.
  - reflexivity.
  - intros j Hj. exists (Py.VenueError "503").
    change (Z.to_nat (RETRY_LIMIT Sample.cfg)) with 3%nat in Hj.
    destruct j as [|[|[|j]]]; [reflexivity | reflexivity | reflexivity | lia].
  - reflexivity.
Defined.

(** C8: during one call of [execute_trade] on an intent with a side, under a
    retry limit that is not negative: at every head of the retry loop (that
    is, after each failed attempt that was not the last) the store and the
    stored status of the intent are those of the start; the call makes exactly
    one call of [update_trade_status], with success or failed, for the
    intent's id; and every stored record under another id stays where and as
    it was. *)
Theorem C8_single_terminal_write :
  forall (CONFIG : Config) (self : Executor.TradeExecutor)
         (trade_doc : Database.TradeDoc) (sc : Executor.Side),
    0 <= RETRY_LIMIT CONFIG ->
    Executor.side_constant trade_doc = Py.Ok sc ->
    let id := Database.trade_id trade_doc in
    let self' := fst (Executor.execute_trade CONFIG self trade_doc) in
    (forall (left : list Z) (s : Executor.TradeExecutor),
       Executor.loop_head CONFIG trade_doc sc
         (Py.range (RETRY_LIMIT CONFIG + 1)) self left s ->
       Executor.db s = Executor.db self
       /\ Executor.stored_status s id = Executor.stored_status self id
       /\ Executor.status_writes s = Executor.status_writes self)
    /\
    (exists st : Database.Status,
       (st = Database.success \/ st = Database.failed)
       /\ Executor.status_writes self' = Executor.status_writes self ++ [(id, st)]
       /\ Executor.db self' = Database.update_trade_status (Executor.db self) id st None)
    /\
    (List.length (Executor.db self') = List.length (Executor.db self)
     /\ forall (i : nat) (t : Database.TradeDoc),
          nth_error (Executor.db self) i = Some t ->
          Database.trade_id t <> id ->
          nth_error (Executor.db self') i = Some t).
Proof.
  intros CONFIG self trade_doc sc Hlimit Hside id self'.
  assert (Hterm : exists st : Database.Status,
            (st = Database.success \/ st = Database.failed)
            /\ Executor.status_writes self' = Executor.status_writes self ++ [(id, st)]
            /\ Executor.db self'
               = Database.update_trade_status (Executor.db self) id st None).
  { subst self'. unfold Executor.execute_trade. rewrite Hside.
    destruct (for_attempts_terminal CONFIG trade_doc sc
                (Py.range (RETRY_LIMIT CONFIG + 1)) self)
      as (st & Hst & Hw & Hdb & _).
    { apply Exists_exists. exists (RETRY_LIMIT CONFIG).
      split; [now apply range_last | lia]. }
    exists st.
    destruct (Executor.for_attempts CONFIG trade_doc sc
                (Py.range (RETRY_LIMIT CONFIG + 1)) self) as [s o].
    cbn [fst] in *. auto. }
  split; [|split].
  - intros left s Hhead.
    destruct (loop_head_frame CONFIG trade_doc sc _ _ _ _ Hhead) as [Hdb Hw].
    unfold Executor.stored_status. rewrite Hdb. auto.
  - exact Hterm.
  - destruct Hterm as (st & _ & _ & Hdb). rewrite Hdb. split.
    + apply update_length.
    + intros i t Hi Hid. apply update_other; [exact Hi|].
      destruct (Py.eqb_opt_str (Database.trade_id t) id) eqn:E; [|reflexivity].
      apply eqb_opt_str_true in E. contradiction.
Qed.

Lemma C8_single_terminal_write_witness :
  let self := Sample.exec (Some Sample.venue_down) in
  let trade_doc := Sample.doc (Some "buy") in
  let id := Some "dead" in
  let self' := fst (Executor.execute_trade Sample.cfg self trade_doc) in
  Executor.loop_head Sample.cfg trade_doc Executor.BUY (Py.range (3 + 1)) self
    [2; 3] (Executor.retried (Executor.make_order trade_doc Executor.BUY) 2 self)
  /\
  (forall (left : list Z) (s : Executor.TradeExecutor),
     Executor.loop_head Sample.cfg trade_doc Executor.BUY (Py.range (3 + 1)) self left s ->
     Executor.db s = Executor.db self
     /\ Executor.stored_status s id = Executor.stored_status self id
     /\ Executor.status_writes s = Executor.status_writes self)
  /\
  (exists st : Database.Status,
     (st = Database.success \/ st = Database.failed)
     /\ Executor.status_writes self' = Executor.status_writes self ++ [(id, st)]
     /\ Executor.db self' = Database.update_trade_status (Executor.db self) id st None)
  /\
  (List.length (Executor.db self') = List.length (Executor.db self)
   /\ forall (i : nat) (t : Database.TradeDoc),
        nth_error (Executor.db self) i = Some t ->
        Database.trade_id t <> id ->
        nth_error (Executor.db self') i = Some t).
Proof.
  split.
  - apply Executor.loop_head_next with
      (s1 := Executor.retried (Executor.make_order (Sample.doc (Some "buy")) Executor.BUY)
               1 (Sample.exec (Some Sample.venue_down)));
      [reflexivity|].
    apply Executor.loop_head_next with
      (s1 := Executor.retried (Executor.make_order (Sample.doc (Some "buy")) Executor.BUY)
               2 (Sample.exec (Some Sample.venue_down)));
      [reflexivity|].
    apply Executor.loop_head_here.
  - apply (C8_single_terminal_write Sample.cfg (Sample.exec (Some Sample.venue_down))
             (Sample.doc (Some "buy")) Executor.BUY).
    + simpl. lia.
    + reflexivity.
Defined.

(** C3 (as the code has it): line 35 maps every side other than "buy" to
    SELL.  A trade whose side is a string that is neither "buy" nor "sell"
    (case-insensitively) is therefore not turned away: [execute_trade] runs on
    it exactly as on the same trade with side "sell". *)
Theorem C3_unknown_side_runs_as_sell :
  forall (CONFIG : Config) (self : Executor.TradeExecutor)
         (trade_doc : Database.TradeDoc) (sd : string),
    Database.side trade_doc = Some sd ->
    Py.lower sd <> "buy" ->
    Py.lower sd <> "sell" ->
    Executor.side_constant trade_doc = Py.Ok Executor.SELL
    /\ Executor.execute_trade CONFIG self trade_doc
       = Executor.execute_trade CONFIG self (Executor.with_side trade_doc (Some "sell")).
Proof.
  intros CONFIG self trade_doc sd Hside Hbuy _.
  assert (Hsc : Executor.side_constant trade_doc = Py.Ok Executor.SELL).
  { unfold Executor.side_constant. rewrite Hside.
    apply String.eqb_neq in Hbuy. now rewrite Hbuy. }
  split; [exact Hsc|].
  unfold Executor.execute_trade. rewrite Hsc.
  change (Executor.side_constant (Executor.with_side trade_doc (Some "sell")))
    with (Py.Ok (A := Executor.Side) Executor.SELL).
  cbv iota beta.
  now rewrite for_attempts_with_side.
Qed.

Lemma C3_unknown_side_runs_as_sell_witness :
  Executor.side_constant (Sample.doc (Some "Hold")) = Py.Ok Executor.SELL
  /\ Executor.execute_trade Sample.cfg (Sample.exec (Some Sample.venue_ok))
       (Sample.doc (Some "Hold"))
     = Executor.execute_trade Sample.cfg (Sample.exec (Some Sample.venue_ok))
         (Executor.with_side (Sample.doc (Some "Hold")) (Some "sell")).
Proof.
  apply (C3_unknown_side_runs_as_sell Sample.cfg (Sample.exec (Some Sample.venue_ok))
           (Sample.doc (Some "Hold")) "Hold");
    [reflexivity | discriminate | discriminate].
Defined.

(** C3, counterexample to failing fast: a trade with side "Hold" enters the
    loop.  Without
    a venue it is simulated and recorded as success; with a venue one SELL
    order is submitted and the trade is recorded as success. *)
Lemma C3_counterexample :
  Py.lower "Hold" <> "buy" /\ Py.lower "Hold" <> "sell"
  /\ snd (Executor.execute_trade Sample.cfg (Sample.exec None) (Sample.doc (Some "Hold")))
     = Py.Ok (Executor.Simulated (Some "dead"))
  /\ Executor.stored_status
       (fst (Executor.execute_trade Sample.cfg (Sample.exec None)
               (Sample.doc (Some "Hold"))))
       (Some "dead") = Some Database.success
  /\ map Executor.oa_side
       (Executor.submitted
          (fst (Executor.execute_trade Sample.cfg (Sample.exec (Some Sample.venue_ok))
                  (Sample.doc (Some "Hold")))))
     = [Executor.SELL]
  /\ Executor.stored_status
       (fst (Executor.execute_trade Sample.cfg (Sample.exec (Some Sample.venue_ok))
               (Sample.doc (Some "Hold"))))
       (Some "dead") = Some Database.success.
Proof.
  repeat split; try discriminate; reflexivity.
Qed.

(* ================================================================== *)
(** * Further properties of the pipeline *)
(* ================================================================== *)

(** X1: with no venue client the first pass of the loop simulates the order:
    the status success is written and the simulated outcome returned, whatever
    the trade. *)
Theorem simulated_execution_succeeds :
  forall (CONFIG : Config) (self : Executor.TradeExecutor)
         (trade_doc : Database.TradeDoc) (sc : Executor.Side),
    0 <= RETRY_LIMIT CONFIG ->
    Executor.client self = None ->
    Executor.side_constant trade_doc = Py.Ok sc ->
    Executor.execute_trade CONFIG self trade_doc
    = (Executor.write_status self (Database.trade_id trade_doc) Database.success,
       Py.Ok (Executor.Simulated (Database.trade_id trade_doc)))
    /\ Executor.submitted (fst (Executor.execute_trade CONFIG self trade_doc))
       = Executor.submitted self
    /\ (Database.has_trade (Executor.db self) (Database.trade_id trade_doc) = true ->
        Executor.stored_status (fst (Executor.execute_trade CONFIG self trade_doc))
          (Database.trade_id trade_doc) = Some Database.success).
Proof.
  intros CONFIG self trade_doc sc Hlimit Hclient Hside.
  assert (Hrun :
    Executor.execute_trade CONFIG self trade_doc
    = (Executor.write_status self (Database.trade_id trade_doc) Database.success,
       Py.Ok (Executor.Simulated (Database.trade_id trade_doc)))).
  { unfold Executor.execute_trade. rewrite Hside. unfold Py.range.
    replace (Z.to_nat (RETRY_LIMIT CONFIG + 1))
      with (S (Z.to_nat (RETRY_LIMIT CONFIG))) by lia.
    cbn [seq map Executor.for_attempts]. unfold Executor.attempt_once.
    now rewrite Hclient. }
  rewrite Hrun. split; [reflexivity|]. split; [reflexivity|].
  intro Hstored. cbn [fst]. now apply stored_status_written.
Qed.

Lemma simulated_execution_succeeds_witness :
  Executor.execute_trade Sample.cfg (Sample.exec None) (Sample.doc (Some "sell"))
  = (Executor.write_status (Sample.exec None) (Some "dead") Database.success,
     Py.Ok (Executor.Simulated (Some "dead")))
  /\ Executor.submitted
       (fst (Executor.execute_trade Sample.cfg (Sample.exec None) (Sample.doc (Some "sell"))))
     = []
  /\ (Database.has_trade (Executor.db (Sample.exec None)) (Some "dead") = true ->
      Executor.stored_status
        (fst (Executor.execute_trade Sample.cfg (Sample.exec None)
                (Sample.doc (Some "sell"))))
        (Some "dead") = Some Database.success).
Proof.
  apply (simulated_execution_succeeds Sample.cfg (Sample.exec None)
           (Sample.doc (Some "sell")) Executor.SELL);
    [simpl; lia | reflexivity | reflexivity].
Defined.

(** The scenario of the specification, as a worked example: the intent (asset 42, buy, price 0.65,
    size 100) is submitted as one BUY order of size 20 at price 0.65. *)
Theorem scenario_scaled_order :
  Executor.submitted
    (fst (Executor.execute_trade Sample.cfg (Sample.exec (Some Sample.venue_ok))
            (Sample.doc (Some "buy"))))
  = [ {| Executor.oa_price := Some 0x1.4cccccccccccdp-1%float;
         Executor.oa_size := 20%float;
         Executor.oa_side := Executor.BUY;
         Executor.oa_token_id := Some "42" |} ].
Proof. reflexivity. Qed.

Section FallbackStores.
Import Database.

Variable CONFIG : Config.

Let all_pending (d : TradeDatabase) : Prop := Forall (fun t => status t = pending) d.

Lemma for_attempts_empty_store trade_doc sc (attempts : list Z)
    (ex : Executor.TradeExecutor) :
  Executor.db ex = [] ->
  Executor.db (fst (Executor.for_attempts CONFIG trade_doc sc attempts ex)) = [].
Proof.
  revert ex. induction attempts as [|a rest IH]; intros ex Hex; [exact Hex|].
  cbn [Executor.for_attempts]. unfold Executor.attempt_once.
  destruct (Executor.client ex) as [venue|].
  - destruct (venue _ _); [cbn; now rewrite Hex|].
    destruct (a <? RETRY_LIMIT CONFIG); [apply IH; exact Hex | cbn; now rewrite Hex].
  - cbn. now rewrite Hex.
Qed.

Lemma trade_callback_empty_store trade_doc (ex : Executor.TradeExecutor) :
  Executor.db ex = [] ->
  Executor.db (Main.trade_callback CONFIG trade_doc ex) = [].
Proof.
  intro Hex. unfold Main.trade_callback, Executor.execute_trade.
  destruct (Executor.side_constant trade_doc) as [sc|e]; [|exact Hex].
  pose proof (for_attempts_empty_store trade_doc sc
                (Py.range (RETRY_LIMIT CONFIG + 1)) ex Hex) as H.
  destruct (Executor.for_attempts CONFIG trade_doc sc
              (Py.range (RETRY_LIMIT CONFIG + 1)) ex) as [ex' o].
  exact H.
Qed.

Lemma handle_event_separate_stores (m : Monitor.TradeMonitor) now created ev
    (ex : Executor.TradeExecutor) :
  all_pending (Monitor.db m) ->
  Executor.db ex = [] ->
  all_pending
    (Monitor.db (fst (Monitor.handle_event (Main.trade_callback CONFIG) CONFIG m
                        now created ev ex)))
  /\ Executor.db (snd (Monitor.handle_event (Main.trade_callback CONFIG) CONFIG m
                         now created ev ex)) = [].
Proof.
  intros Hm Hex. unfold Monitor.handle_event, Monitor.handle_event_body.
  destruct (Monitor.decode_event m ev) as [[td|]|e]; cbn [Py.bind]; auto.
  destruct (Monitor.staleness_threshold CONFIG now) as [thr|e]; cbn [Py.bind]; auto.
  destruct (td_timestamp td) as [t|]; auto.
  destruct (Py.int_ge_float t thr); auto.
  cbn [save_trade_default save_trade fst snd Monitor.with_db Monitor.db].
  split.
  - apply Forall_app. split; [exact Hm|]. now constructor.
  - now apply trade_callback_empty_store.
Qed.

Lemma handle_events_separate_stores (entries : list Monitor.Arrival)
    (m : Monitor.TradeMonitor) (ex : Executor.TradeExecutor) :
  all_pending (Monitor.db m) ->
  Executor.db ex = [] ->
  all_pending
    (Monitor.db (fst (Monitor.handle_events (Main.trade_callback CONFIG) CONFIG m
                        entries ex)))
  /\ Executor.db (snd (Monitor.handle_events (Main.trade_callback CONFIG) CONFIG m
                         entries ex)) = [].
Proof.
  revert m ex. induction entries as [|a rest IH]; intros m ex Hm Hex; [now split|].
  cbn [Monitor.handle_events].
  destruct (handle_event_separate_stores m (Monitor.checked_at a) (Monitor.saved_at a)
              (Monitor.arrived a) ex Hm Hex) as [Hm' Hex'].
  destruct (Monitor.handle_event (Main.trade_callback CONFIG) CONFIG m
              (Monitor.checked_at a) (Monitor.saved_at a) (Monitor.arrived a) ex)
    as [m' ex'].
  now apply IH.
Qed.

End FallbackStores.

(** X3: on the in-memory fallback the monitor and the executor each own a
    list: whatever events the bot started by [main] handles, the executor's
    list stays empty, so its status writes find no record and every record the
    monitor saved is still pending. *)
Theorem fallback_stores_are_separate :
  forall (CONFIG : Config) (w3 : Z -> Py.result Z)
         (client : option Executor.ClobClient) (entries : list Monitor.Arrival),
    let bot := Main.on_events CONFIG (Main.start CONFIG w3 client) entries in
    Executor.db (Main.executor bot) = []
    /\ Forall (fun t => Database.status t = Database.pending)
              (Monitor.db (Main.monitor bot)).
Proof.
  intros CONFIG w3 client entries bot. subst bot. unfold Main.on_events.
  destruct (handle_events_separate_stores CONFIG entries
              (Main.monitor (Main.start CONFIG w3 client))
              (Main.executor (Main.start CONFIG w3 client)))
    as [Hm Hex]; [constructor | reflexivity |].
  destruct (Monitor.handle_events (Main.trade_callback CONFIG) CONFIG
              (Main.monitor (Main.start CONFIG w3 client)) entries
              (Main.executor (Main.start CONFIG w3 client))) as [m ex].
  split; assumption.
Qed.

(* ================================================================== *)
(** * Further properties of the trade store *)
(* ================================================================== *)

Section StoreLaws.
Import Database.

Lemma dict_update_trade_id (t : TradeDoc) st rc :
  trade_id (dict_update t st rc) = trade_id t.
Proof. reflexivity. Qed.

Lemma update_keeps_data (self : TradeDatabase) id st rc :
  Forall2 Pipeline.same_trade_data self (update_trade_status self id st rc).
Proof.
  assert (Hrefl : forall l : TradeDatabase, Forall2 Pipeline.same_trade_data l l).
  { induction l as [|u l IHl]; constructor; auto.
    unfold Pipeline.same_trade_data. repeat split. }
  induction self as [|t rest IH]; simpl; [constructor|].
  destruct (Py.eqb_opt_str (trade_id t) id).
  - constructor; [|apply Hrefl].
    unfold Pipeline.same_trade_data. repeat split.
  - constructor; [|exact IH].
    unfold Pipeline.same_trade_data. repeat split.
Qed.

Lemma update_twice (self : TradeDatabase) id s1 r1 s2 r2 :
  update_trade_status (update_trade_status self id s1 r1) id s2 r2
  = update_trade_status self id s2
      (match r2 with Some n => Some n | None => r1 end).
Proof.
  induction self as [|t rest IH]; simpl; [reflexivity|].
  destruct (Py.eqb_opt_str (trade_id t) id) eqn:E; simpl.
  - rewrite E. f_equal. unfold dict_update; simpl.
    destruct r2, r1; reflexivity.
  - rewrite E. f_equal. exact IH.
Qed.

Lemma update_commute (self : TradeDatabase) id1 s1 r1 id2 s2 r2 :
  id1 <> id2 ->
  update_trade_status (update_trade_status self id1 s1 r1) id2 s2 r2
  = update_trade_status (update_trade_status self id2 s2 r2) id1 s1 r1.
Proof.
  intro Hne. induction self as [|t rest IH]; simpl; [reflexivity|].
  destruct (Py.eqb_opt_str (trade_id t) id1) eqn:E1;
    destruct (Py.eqb_opt_str (trade_id t) id2) eqn:E2; simpl;
    rewrite ?E1, ?E2; simpl; rewrite ?E1, ?E2.
  - apply eqb_opt_str_true in E1, E2. congruence.
  - reflexivity.
  - reflexivity.
  - f_equal. exact IH.
Qed.

(** A store that holds the id is updated in place, whatever follows it. *)
Lemma update_app_present (l l' : TradeDatabase) id st rc :
  has_trade l id = true ->
  update_trade_status (l ++ l') id st rc = update_trade_status l id st rc ++ l'.
Proof.
  induction l as [|t rest IH]; simpl; [discriminate|].
  destruct (Py.eqb_opt_str (trade_id t) id); simpl; intro H; [reflexivity|].
  f_equal. now apply IH.
Qed.

Lemma find_app_absent (l l' : TradeDatabase) id :
  has_trade l id = false -> find_trade (l ++ l') id = find_trade l' id.
Proof.
  unfold find_trade, has_trade.
  induction l as [|t rest IH]; simpl; [reflexivity|].
  destruct (Py.eqb_opt_str (trade_id t) id); simpl; [discriminate | exact IH].
Qed.

Lemma pending_app (l l' : TradeDatabase) :
  get_pending_trades (l ++ l') = get_pending_trades l ++ get_pending_trades l'.
Proof. unfold get_pending_trades. apply filter_app. Qed.

Lemma Status_eqb_pending_false (st : Status) :
  st <> pending -> Status_eqb st pending = false.
Proof. destruct st; intro H; [contradiction | reflexivity | reflexivity]. Qed.

Lemma has_trade_false_forall (l : TradeDatabase) id :
  has_trade l id = false <->
  Forall (fun t => Py.eqb_opt_str (trade_id t) id = false) l.
Proof.
  unfold has_trade. induction l as [|t rest IH]; simpl.
  - split; [constructor | reflexivity].
  - rewrite orb_false_iff, IH. split.
    + intros [H1 H2]. now constructor.
    + intro H. inversion H; subst. now split.
Qed.

Lemma pending_others_absent (l : TradeDatabase) id :
  has_trade l id = false ->
  filter (fun t => negb (Py.eqb_opt_str (trade_id t) id)) (get_pending_trades l)
  = get_pending_trades l.
Proof.
  unfold get_pending_trades, has_trade.
  induction l as [|t rest IH]; simpl; [reflexivity|].
  intro H. apply orb_false_iff in H as [Ht Hrest].
  destruct (Status_eqb (status t) pending); simpl; [rewrite Ht; simpl; f_equal|]; auto.
Qed.

Lemma nodup_ids_tail_absent (t : TradeDoc) (rest : TradeDatabase) :
  NoDup (map trade_id (t :: rest)) -> has_trade rest (trade_id t) = false.
Proof.
  intro H. inversion H as [|? ? Hnotin _]; subst.
  apply has_trade_false_forall. apply Forall_forall. intros u Hu.
  destruct (Py.eqb_opt_str (trade_id u) (trade_id t)) eqn:E; [|reflexivity].
  apply eqb_opt_str_true in E. exfalso. apply Hnotin.
  rewrite <- E. now apply in_map.
Qed.

End StoreLaws.

(** X4: [update_trade_status] changes nothing but status and retry count:
    the store keeps its length and order, and every record keeps its trade id,
    market, asset id, side, price, size, timestamp and creation time. *)
Theorem update_keeps_trade_data :
  forall (self : Database.TradeDatabase) (id : option string)
         (st : Database.Status) (rc : option Z),
    Forall2 Pipeline.same_trade_data self (Database.update_trade_status self id st rc)
    /\ List.length (Database.update_trade_status self id st rc) = List.length self
    /\ map Database.trade_id (Database.update_trade_status self id st rc)
       = map Database.trade_id self.
Proof.
  intros self id st rc. split; [apply update_keeps_data|].
  split; [apply update_length|].
  induction self as [|t rest IH]; simpl; [reflexivity|].
  destruct (Py.eqb_opt_str (Database.trade_id t) id); simpl; [reflexivity|].
  now rewrite IH.
Qed.

(** X5: the last status write wins.  Two updates of the same id amount to
    the second one alone, with the retry count of the first kept when the
    second gives none; a terminal status is overwritten like any other, and an
    update repeated is the update made once. *)
Theorem update_last_write_wins :
  forall (self : Database.TradeDatabase) (id : option string)
         (s1 s2 : Database.Status) (r1 r2 : option Z),
    Database.update_trade_status (Database.update_trade_status self id s1 r1) id s2 r2
    = Database.update_trade_status self id s2
        (match r2 with Some n => Some n | None => r1 end).
Proof. intros. apply update_twice. Qed.

(** X6: status writes for different trade ids commute. *)
Theorem updates_of_distinct_ids_commute :
  forall (self : Database.TradeDatabase) (id1 id2 : option string)
         (s1 s2 : Database.Status) (r1 r2 : option Z),
    id1 <> id2 ->
    Database.update_trade_status (Database.update_trade_status self id1 s1 r1) id2 s2 r2
    = Database.update_trade_status (Database.update_trade_status self id2 s2 r2) id1 s1 r1.
Proof. intros. now apply update_commute. Qed.

Lemma updates_of_distinct_ids_commute_witness :
  Database.update_trade_status
    (Database.update_trade_status [Sample.other_doc; Sample.doc (Some "buy")]
       (Some "dead") Database.success None)
    (Some "beef") Database.failed (Some 3)
  = Database.update_trade_status
      (Database.update_trade_status [Sample.other_doc; Sample.doc (Some "buy")]
         (Some "beef") Database.failed (Some 3))
      (Some "dead") Database.success None.
Proof.
  apply (updates_of_distinct_ids_commute [Sample.other_doc; Sample.doc (Some "buy")]
           (Some "dead") (Some "beef") Database.success Database.failed None (Some 3)).
  discriminate.
Defined.

(** X7: a trade saved under an id the store already holds is out of reach
    of [update_trade_status]: the write lands on the older record, and the
    newly saved one is still listed as pending after it. *)
Theorem duplicate_save_stays_pending :
  forall (self : Database.TradeDatabase) (now : float) (td : Database.TradeData)
         (st : Database.Status) (rc : option Z),
    Database.has_trade self (Database.td_trade_id td) = true ->
    let saved := Database.save_trade_default self now td in
    let self' :=
      Database.update_trade_status (fst saved) (Database.td_trade_id td) st rc in
    self' = Database.update_trade_status self (Database.td_trade_id td) st rc
            ++ [snd saved]
    /\ In (snd saved) (Database.get_pending_trades self').
Proof.
  intros self now td st rc Hheld saved self'. subst saved self'.
  cbn [Database.save_trade_default Database.save_trade fst snd].
  rewrite update_app_present by exact Hheld.
  split; [reflexivity|].
  rewrite pending_app. apply in_or_app. right. now left.
Qed.

Lemma duplicate_save_stays_pending_witness :
  let saved :=
    Database.save_trade_default [Sample.doc (Some "buy")] 1700000200 Sample.td_buy in
  let self' :=
    Database.update_trade_status (fst saved) (Some "dead") Database.success None in
  self' = Database.update_trade_status [Sample.doc (Some "buy")] (Some "dead")
            Database.success None
          ++ [snd saved]
  /\ In (snd saved) (Database.get_pending_trades self').
Proof.
  apply (duplicate_save_stays_pending [Sample.doc (Some "buy")] 1700000200%float
           Sample.td_buy Database.success None).
  reflexivity.
Defined.

(** X8: save, update, look up.  A trade saved under an id the store does not
    hold yet and then updated is the last record, found under its id with the
    new status (and the new retry count when one is given); after a terminal
    status the pending list is what it was before the save. *)
Theorem save_update_find :
  forall (self : Database.TradeDatabase) (now : float) (td : Database.TradeData)
         (st : Database.Status) (rc : option Z),
    Database.has_trade self (Database.td_trade_id td) = false ->
    let saved := Database.save_trade_default self now td in
    let updated := Database.dict_update (snd saved) st rc in
    let self' :=
      Database.update_trade_status (fst saved) (Database.td_trade_id td) st rc in
    self' = self ++ [updated]
    /\ Database.find_trade self' (Database.td_trade_id td) = Some updated
    /\ Database.status updated = st
    /\ Database.retry_count updated = match rc with Some n => n | None => 0 end
    /\ (st <> Database.pending ->
        Database.get_pending_trades self' = Database.get_pending_trades self).
Proof.
  intros self now td st rc Hfresh saved updated self'. subst saved updated self'.
  cbn [Database.save_trade_default Database.save_trade fst snd].
  rewrite update_first by (auto; apply eqb_opt_str_refl).
  split; [reflexivity|]. split.
  - rewrite find_app_absent by exact Hfresh.
    unfold Database.find_trade. cbn [find Database.dict_update Database.trade_id].
    now rewrite eqb_opt_str_refl.
  - split; [reflexivity|]. split; [reflexivity|].
    intro Hst. rewrite pending_app.
    unfold Database.get_pending_trades at 2.
    cbn [filter Database.dict_update Database.status].
    rewrite (Status_eqb_pending_false st Hst). apply app_nil_r.
Qed.

Lemma save_update_find_witness :
  let saved := Database.save_trade_default [Sample.other_doc] 1700000200 Sample.td_buy in
  let updated := Database.dict_update (snd saved) Database.failed (Some 3) in
  let self' :=
    Database.update_trade_status (fst saved) (Some "dead") Database.failed (Some 3) in
  self' = [Sample.other_doc] ++ [updated]
  /\ Database.find_trade self' (Some "dead") = Some updated
  /\ Database.status updated = Database.failed
  /\ Database.retry_count updated = 3
  /\ (Database.failed <> Database.pending ->
      Database.get_pending_trades self' = Database.get_pending_trades [Sample.other_doc]).
Proof.
  apply (save_update_find [Sample.other_doc] 1700000200%float Sample.td_buy
           Database.failed (Some 3)).
  reflexivity.
Defined.

(** X9: in a store whose trade ids are all different, a terminal status
    written for an id takes that id, and nothing else, off the pending list:
    the other pending trades are listed as before, in the same order. *)
Theorem terminal_write_clears_pending :
  forall (self : Database.TradeDatabase) (id : option string)
         (st : Database.Status) (rc : option Z),
    NoDup (map Database.trade_id self) ->
    st <> Database.pending ->
    Database.get_pending_trades (Database.update_trade_status self id st rc)
    = filter (fun t => negb (Py.eqb_opt_str (Database.trade_id t) id))
             (Database.get_pending_trades self).
Proof.
  intros self id st rc Hnodup Hst.
  induction self as [|t rest IH]; [reflexivity|].
  cbn [Database.update_trade_status].
  destruct (Py.eqb_opt_str (Database.trade_id t) id) eqn:E.
  - assert (Hrest : Database.has_trade rest id = false).
    { apply eqb_opt_str_true in E. subst id. now apply nodup_ids_tail_absent. }
    unfold Database.get_pending_trades at 1 2.
    cbn [filter Database.dict_update Database.status].
    rewrite (Status_eqb_pending_false st Hst).
    fold (Database.get_pending_trades rest).
    destruct (Database.Status_eqb (Database.status t) Database.pending);
      cbn [filter]; rewrite ?E; cbn [negb];
      now rewrite pending_others_absent.
  - unfold Database.get_pending_trades at 1 2. cbn [filter].
    fold (Database.get_pending_trades (Database.update_trade_status rest id st rc)).
    fold (Database.get_pending_trades rest).
    inversion Hnodup; subst.
    destruct (Database.Status_eqb (Database.status t) Database.pending);
      cbn [filter]; rewrite ?E; cbn [negb]; rewrite IH by assumption; reflexivity.
Qed.

Lemma terminal_write_clears_pending_witness :
  Database.get_pending_trades
    (Database.update_trade_status [Sample.other_doc; Sample.doc (Some "buy")]
       (Some "dead") Database.success None)
  = filter (fun t => negb (Py.eqb_opt_str (Database.trade_id t) (Some "dead")))
           (Database.get_pending_trades [Sample.other_doc; Sample.doc (Some "buy")]).
Proof.
  apply (terminal_write_clears_pending [Sample.other_doc; Sample.doc (Some "buy")]
           (Some "dead") Database.success None).
  - repeat constructor; simpl; intuition discriminate.
  - discriminate.
Defined.

(* ================================================================== *)
(** * Further properties of the monitor *)
(* ================================================================== *)

Section MonitorLaws.
Import Database Monitor.

(** What every decoded intent looks like. *)
Lemma decode_event_shape (self : TradeMonitor) (ev : Event) (td : TradeData) :
  decode_event self ev = Py.Ok (Some td) ->
  (td_side td = Some "buy" \/ td_side td = Some "sell")
  /\ td_market td = Some "unknown"
  /\ exists block_time,
       td_timestamp td = Some block_time
       /\ get_block_timestamp self (blockNumber ev) = Py.Ok block_time.
Proof.
  unfold decode_event.
  destruct (negb _ && negb _)%bool; [discriminate|].
  destruct (Py.float_of_int (makerAmountFilled ev)); [|discriminate].
  destruct (Py.float_of_int (takerAmountFilled ev)); [|discriminate].
  cbn [Py.bind].
  destruct (infer_side _ _ _ _ _) as [[sd tok] usdc] eqn:Hleg.
  destruct (get_block_timestamp self (blockNumber ev)) as [ts|];
    cbn [Py.bind]; [|discriminate].
  intros [= <-]. cbn [td_side td_market td_timestamp].
  split; [|split; [reflexivity | exists ts; split; reflexivity]].
  unfold infer_side in Hleg.
  destruct (String.eqb _ _), (makerAssetId ev =? 0), (takerAssetId ev =? 0);
    injection Hleg as <- _ _; auto.
Qed.

Lemma lower_empty (s : string) : Py.lower s = "" -> s = "".
Proof. destruct s; [reflexivity | discriminate]. Qed.

Lemma hex_value_digit (n : N) : (n < 16)%N -> Pipeline.hex_value (Py.hex_digit n) = n.
Proof.
  intro H. destruct n as [|p]; [reflexivity|].
  do 5 (try (destruct p as [p|p|]; try reflexivity; try (exfalso; lia))).
Qed.

Lemma hex_inj (a b : list Byte.byte) : Py.hex a = Py.hex b -> a = b.
Proof.
  revert b. induction a as [|x a IH]; intros [|y b] H; try discriminate H.
  - reflexivity.
  - cbn [Py.hex] in H. injection H as Hhi Hlo Hrest.
    pose proof (Byte.to_N_bounded x) as Bx.
    pose proof (Byte.to_N_bounded y) as By.
    apply (f_equal Pipeline.hex_value) in Hhi, Hlo.
    rewrite !hex_value_digit in Hhi
      by (apply N.Div0.div_lt_upper_bound; lia).
    rewrite !hex_value_digit in Hlo by (apply N.mod_lt; lia).
    assert (Hxy : Byte.to_N x = Byte.to_N y).
    { rewrite (N.div_mod (Byte.to_N x) 16), (N.div_mod (Byte.to_N y) 16) by lia.
      now rewrite Hhi, Hlo. }
    assert (Some x = Some y) as [= ->]
      by (rewrite <- (Byte.of_to_N x), <- (Byte.of_to_N y); now rewrite Hxy).
    f_equal. now apply IH.
Qed.

Context {W : Type} (trade_callback : TradeDoc -> W -> W).

(** [handle_event] either leaves everything as it is, or saves the decoded
    intent at the end of the store and calls the callback with it. *)
Lemma handle_event_cases (CONFIG : Config) (self : TradeMonitor) now created
    (ev : Event) (w : W) :
  handle_event trade_callback CONFIG self now created ev w = (self, w)
  \/ exists td,
       decode_event self ev = Py.Ok (Some td)
       /\ handle_event trade_callback CONFIG self now created ev w
          = (with_db self (db self ++ [snd (save_trade_default (db self) created td)]),
             trade_callback (snd (save_trade_default (db self) created td)) w).
Proof.
  unfold handle_event, handle_event_body.
  destruct (decode_event self ev) as [[td|]|e]; cbn [Py.bind]; auto.
  destruct (staleness_threshold CONFIG now) as [thr|e]; cbn [Py.bind]; auto.
  destruct (td_timestamp td) as [t|]; auto.
  destruct (Py.int_ge_float t thr); auto.
  right. exists td. split; reflexivity.
Qed.

Lemma handle_events_app (CONFIG : Config) (l1 l2 : list Arrival)
    (self : TradeMonitor) (w : W) :
  handle_events trade_callback CONFIG self (l1 ++ l2) w
  = handle_events trade_callback CONFIG
      (fst (handle_events trade_callback CONFIG self l1 w)) l2
      (snd (handle_events trade_callback CONFIG self l1 w)).
Proof.
  revert self w. induction l1 as [|a l1 IH]; intros self w; [reflexivity|].
  cbn [app handle_events].
  destruct (handle_event trade_callback CONFIG self (checked_at a) (saved_at a)
              (arrived a) w) as [self' w'].
  apply IH.
Qed.

(** Over a run of events the store only grows at its end, and the callback
    is called with the records added, in order. *)
Lemma handle_events_appends (CONFIG : Config) (entries : list Arrival)
    (self : TradeMonitor) (w : W) :
  exists added : list TradeDoc,
    db (fst (handle_events trade_callback CONFIG self entries w)) = db self ++ added
    /\ target_wallet (fst (handle_events trade_callback CONFIG self entries w))
       = target_wallet self
    /\ snd (handle_events trade_callback CONFIG self entries w)
       = Pipeline.dispatch trade_callback added w
    /\ (List.length added <= List.length entries)%nat
    /\ Forall (fun d => status d = pending /\ retry_count d = 0
                        /\ market d = Some "unknown"
                        /\ (side d = Some "buy" \/ side d = Some "sell")) added.
Proof.
  revert self w. induction entries as [|a rest IH]; intros self w.
  - exists []. cbn. rewrite app_nil_r. repeat split; auto.
  - cbn [handle_events].
    destruct (handle_event_cases CONFIG self (checked_at a) (saved_at a) (arrived a) w)
      as [-> | (td & Hd & ->)].
    + destruct (IH self w) as (added & H1 & H2 & H3 & H4 & H5).
      exists added. repeat split; auto. cbn [List.length]. lia.
    + set (doc := snd (save_trade_default (db self) (saved_at a) td)).
      destruct (IH (with_db self (db self ++ [doc])) (trade_callback doc w))
        as (added & H1 & H2 & H3 & H4 & H5).
      exists (doc :: added).
      rewrite H1, H2, H3. cbn [with_db db target_wallet List.length].
      rewrite <- app_assoc. repeat split; auto; [lia|].
      constructor; [|exact H5].
      destruct (decode_event_shape self (arrived a) td Hd) as (Hside & Hmarket & _).
      subst doc. cbn. auto.
Qed.

End MonitorLaws.

(** X10: the monitor's store is append-only.  Whatever events are handled,
    the records already stored stay as and where they are; at most one record
    per event is added at the end, each pending with retry count 0, market
    "unknown" and side "buy" or "sell"; and the callback is called exactly
    once for each record added, in the order of saving, with that record. *)
Theorem monitor_appends_and_dispatches :
  forall (W : Type) (trade_callback : Database.TradeDoc -> W -> W)
         (CONFIG : Config) (self : Monitor.TradeMonitor)
         (entries : list Monitor.Arrival) (w : W),
    exists added : list Database.TradeDoc,
      Monitor.db (fst (Monitor.handle_events trade_callback CONFIG self entries w))
      = Monitor.db self ++ added
      /\ snd (Monitor.handle_events trade_callback CONFIG self entries w)
         = Pipeline.dispatch trade_callback added w
      /\ (List.length added <= List.length entries)%nat
      /\ Forall (fun d => Database.status d = Database.pending
                          /\ Database.retry_count d = 0
                          /\ Database.market d = Some "unknown"
                          /\ (Database.side d = Some "buy"
                              \/ Database.side d = Some "sell")) added.
Proof.
  intros W cb CONFIG self entries w.
  destruct (handle_events_appends cb CONFIG entries self w)
    as (added & H1 & _ & H3 & H4 & H5).
  exists added. auto.
Qed.

(** X11: an event whose block cannot be looked up is dropped, whoever its
    maker and taker are: the exception is swallowed, nothing is saved and the
    callback is not called. *)
Theorem block_lookup_failure_drops_event :
  forall (W : Type) (trade_callback : Database.TradeDoc -> W -> W)
         (CONFIG : Config) (self : Monitor.TradeMonitor) (ev : Monitor.Event)
         (now created : float) (w : W) (e : Py.exn),
    Monitor.get_block_timestamp self (Monitor.blockNumber ev) = Py.Raise e ->
    Monitor.handle_event trade_callback CONFIG self now created ev w = (self, w).
Proof.
  intros W cb CONFIG self ev now created w e Hblock.
  destruct (handle_event_cases cb CONFIG self now created ev w)
    as [H | (td & Hd & _)]; [exact H|].
  destruct (decode_event_shape self ev td Hd) as (_ & _ & ts & _ & Hts).
  rewrite Hblock in Hts. discriminate.
Qed.

Lemma block_lookup_failure_drops_event_witness :
  Monitor.handle_event Monitor.recording_callback Sample.cfg
    (Monitor.init Sample.cfg (fun _ => Py.Raise Py.BlockLookupError))
    1700000100 1700000100 Sample.ev_buy []
  = (Monitor.init Sample.cfg (fun _ => Py.Raise Py.BlockLookupError), []).
Proof.
  apply (block_lookup_failure_drops_event (list Database.TradeDoc)
           Monitor.recording_callback Sample.cfg
           (Monitor.init Sample.cfg (fun _ => Py.Raise Py.BlockLookupError))
           Sample.ev_buy 1700000100%float 1700000100%float [] Py.BlockLookupError).
  reflexivity.
Defined.

(** X12: with no target wallet configured (the entry missing or empty) the
    target is the empty string, and no event with a maker and a taker address
    is ever taken: nothing is saved and the callback is never called. *)
Theorem unset_target_matches_nothing :
  forall (W : Type) (trade_callback : Database.TradeDoc -> W -> W)
         (CONFIG : Config) (w3 : Z -> Py.result Z)
         (entries : list Monitor.Arrival) (w : W),
    (TARGET_WALLET CONFIG = None \/ TARGET_WALLET CONFIG = Some "") ->
    Forall (fun a => Monitor.maker (Monitor.arrived a) <> ""
                     /\ Monitor.taker (Monitor.arrived a) <> "") entries ->
    Monitor.handle_events trade_callback CONFIG (Monitor.init CONFIG w3) entries w
    = (Monitor.init CONFIG w3, w).
Proof.
  intros W cb CONFIG w3 entries w Hunset Hall.
  assert (Htarget : Monitor.target_wallet (Monitor.init CONFIG w3) = "")
    by (unfold Monitor.init; destruct Hunset as [-> | ->]; reflexivity).
  induction Hall as [|a rest [Hm Ht] _ IH]; [reflexivity|].
  cbn [Monitor.handle_events].
  rewrite handle_event_not_decoded; [exact IH|].
  apply decode_event_other_account; rewrite Htarget; apply String.eqb_neq;
    intro H; apply lower_empty in H; contradiction.
Qed.

Lemma unset_target_matches_nothing_witness :
  Monitor.handle_events Monitor.recording_callback
    {| TARGET_WALLET := None; TOO_OLD_TIMESTAMP := 300; RETRY_LIMIT := 3 |}
    (Monitor.init {| TARGET_WALLET := None; TOO_OLD_TIMESTAMP := 300; RETRY_LIMIT := 3 |}
       Sample.chain)
    [Sample.arrival; Sample.arrival] []
  = (Monitor.init {| TARGET_WALLET := None; TOO_OLD_TIMESTAMP := 300; RETRY_LIMIT := 3 |}
       Sample.chain, []).
Proof.
  apply (unset_target_matches_nothing (list Database.TradeDoc)
           Monitor.recording_callback
           {| TARGET_WALLET := None; TOO_OLD_TIMESTAMP := 300; RETRY_LIMIT := 3 |}
           Sample.chain [Sample.arrival; Sample.arrival] []).
  - left. reflexivity.
  - repeat constructor; discriminate.
Defined.

(** X13: every intent the monitor decodes can be executed: saved, it has a
    side on which line 35 of the executor does not raise, BUY for a decoded
    buy and SELL for a decoded sell. *)
Theorem decoded_side_is_executable :
  forall (self : Monitor.TradeMonitor) (ev : Monitor.Event) (td : Database.TradeData)
         (store : Database.TradeDatabase) (created : float),
    Monitor.decode_event self ev = Py.Ok (Some td) ->
    let trade_doc := snd (Database.save_trade_default store created td) in
    (Database.td_side td = Some "buy"
     /\ Executor.side_constant trade_doc = Py.Ok Executor.BUY)
    \/ (Database.td_side td = Some "sell"
        /\ Executor.side_constant trade_doc = Py.Ok Executor.SELL).
Proof.
  intros self ev td store created Hd trade_doc. subst trade_doc.
  destruct (decode_event_shape self ev td Hd) as ([Hs | Hs] & _).
  - left. split; [exact Hs|].
    unfold Executor.side_constant. cbn. now rewrite Hs.
  - right. split; [exact Hs|].
    unfold Executor.side_constant. cbn. now rewrite Hs.
Qed.

Lemma decoded_side_is_executable_witness :
  let trade_doc := snd (Database.save_trade_default [] 1700000100 Sample.td_buy) in
  (Database.td_side Sample.td_buy = Some "buy"
   /\ Executor.side_constant trade_doc = Py.Ok Executor.BUY)
  \/ (Database.td_side Sample.td_buy = Some "sell"
      /\ Executor.side_constant trade_doc = Py.Ok Executor.SELL).
Proof.
  apply (decoded_side_is_executable Sample.mon Sample.ev_buy Sample.td_buy []
           1700000100%float).
  reflexivity.
Defined.

(** X14: the legs are not validated.  An event of the target account with
    no cash leg (both asset ids non-zero) is decoded as a sell under the
    maker's asset id, and one with two cash legs as a buy under the asset id
    "0"; neither is rejected. *)
Theorem legs_are_not_validated :
  forall (self : Monitor.TradeMonitor) (ev : Monitor.Event)
         (maker_amt taker_amt : float) (block_time : Z),
    (String.eqb (Py.lower (Monitor.maker ev)) (Monitor.target_wallet self)
     || String.eqb (Py.lower (Monitor.taker ev)) (Monitor.target_wallet self))%bool = true ->
    Py.float_of_int (Monitor.makerAmountFilled ev) = Py.Ok maker_amt ->
    Py.float_of_int (Monitor.takerAmountFilled ev) = Py.Ok taker_amt ->
    Monitor.get_block_timestamp self (Monitor.blockNumber ev) = Py.Ok block_time ->
    (Monitor.makerAssetId ev <> 0 -> Monitor.takerAssetId ev <> 0 ->
     exists td, Monitor.decode_event self ev = Py.Ok (Some td)
                /\ Database.td_side td = Some "sell"
                /\ Database.td_asset_id td = Some (Py.str (Monitor.makerAssetId ev)))
    /\
    (Monitor.makerAssetId ev = 0 -> Monitor.takerAssetId ev = 0 ->
     exists td, Monitor.decode_event self ev = Py.Ok (Some td)
                /\ Database.td_side td = Some "buy"
                /\ Database.td_asset_id td = Some "0").
Proof.
  intros self ev maker_amt taker_amt block_time Hmatch Hma Hta Hblock.
  pose proof (decode_event_matching self ev maker_amt taker_amt block_time
                Hmatch Hma Hta Hblock) as Hd.
  cbv zeta in Hd. unfold Monitor.infer_side in Hd.
  split.
  - intros Hm Ht. apply Z.eqb_neq in Hm, Ht. rewrite Hm, Ht in Hd.
    eexists. split; [exact Hd|].
    destruct (String.eqb _ _); split; reflexivity.
  - intros Hm Ht. rewrite Hm, Ht in Hd. cbn [Z.eqb negb] in Hd.
    eexists. split; [exact Hd|].
    destruct (String.eqb _ _); split; reflexivity.
Qed.

Lemma legs_are_not_validated_witness :
  (7 <> 0 -> 42 <> 0 ->
   exists td,
     Monitor.decode_event Sample.mon
       {| Monitor.maker := "0xdef"; Monitor.taker := "0xABC";
          Monitor.makerAssetId := 7; Monitor.takerAssetId := 42;
          Monitor.makerAmountFilled := 65000000;
          Monitor.takerAmountFilled := 100000000;
          Monitor.transactionHash := [Byte.xde; Byte.xad];
          Monitor.blockNumber := 7 |} = Py.Ok (Some td)
     /\ Database.td_side td = Some "sell"
     /\ Database.td_asset_id td = Some (Py.str 7))
  /\
  (7 = 0 -> 42 = 0 ->
   exists td,
     Monitor.decode_event Sample.mon
       {| Monitor.maker := "0xdef"; Monitor.taker := "0xABC";
          Monitor.makerAssetId := 7; Monitor.takerAssetId := 42;
          Monitor.makerAmountFilled := 65000000;
          Monitor.takerAmountFilled := 100000000;
          Monitor.transactionHash := [Byte.xde; Byte.xad];
          Monitor.blockNumber := 7 |} = Py.Ok (Some td)
     /\ Database.td_side td = Some "buy"
     /\ Database.td_asset_id td = Some "0").
Proof.
  apply (legs_are_not_validated Sample.mon
           {| Monitor.maker := "0xdef"; Monitor.taker := "0xABC";
              Monitor.makerAssetId := 7; Monitor.takerAssetId := 42;
              Monitor.makerAmountFilled := 65000000;
              Monitor.takerAmountFilled := 100000000;
              Monitor.transactionHash := [Byte.xde; Byte.xad];
              Monitor.blockNumber := 7 |}
           65000000%float 100000000%float 1700000000);
    reflexivity.
Defined.

(** X15: the trade id identifies the transaction.  Two decoded events have
    the same trade id exactly when they carry the same transaction hash. *)
Theorem trade_id_identifies_transaction :
  forall (self1 self2 : Monitor.TradeMonitor) (ev1 ev2 : Monitor.Event)
         (td1 td2 : Database.TradeData),
    Monitor.decode_event self1 ev1 = Py.Ok (Some td1) ->
    Monitor.decode_event self2 ev2 = Py.Ok (Some td2) ->
    (Database.td_trade_id td1 = Database.td_trade_id td2
     <-> Monitor.transactionHash ev1 = Monitor.transactionHash ev2).
Proof.
  intros self1 self2 ev1 ev2 td1 td2 H1 H2.
  rewrite (decode_event_trade_id _ _ _ H1), (decode_event_trade_id _ _ _ H2).
  split.
  - intros [= H]. now apply hex_inj.
  - intros ->. reflexivity.
Qed.

Lemma trade_id_identifies_transaction_witness :
  Database.td_trade_id Sample.td_buy = Database.td_trade_id Sample.td_buy
  <-> Monitor.transactionHash Sample.ev_buy = Monitor.transactionHash Sample.ev_buy.
Proof.
  apply (trade_id_identifies_transaction Sample.mon Sample.mon Sample.ev_buy
           Sample.ev_buy Sample.td_buy Sample.td_buy);
    reflexivity.
Defined.

(** X16: the listener thread over any run of polls.  The store and the
    callback's world are those of handling, in order, the entries of the
    polls that did not raise; a poll that raises loses nothing and changes
    nothing; and the thread sleeps once per poll, raised or not. *)
Theorem listener_handles_delivered_entries :
  forall (W : Type) (trade_callback : Database.TradeDoc -> W -> W)
         (CONFIG : Config) (polls : list Listener.Poll) (st : Listener.Loop W),
    let st' := Listener.listen_events trade_callback CONFIG st polls in
    (Listener.mon st', Listener.world st')
    = Monitor.handle_events trade_callback CONFIG (Listener.mon st)
        (Listener.delivered polls) (Listener.world st)
    /\ Listener.sleeps st' = (Listener.sleeps st + List.length polls)%nat.
Proof.
  intros W cb CONFIG polls. unfold Listener.listen_events.
  induction polls as [|poll rest IH]; intro st; cbv zeta in *.
  - cbn. split; [reflexivity | lia].
  - cbn [fold_left Listener.delivered List.length].
    destruct (IH (Listener.listen_pass cb CONFIG st poll)) as [Hrun Hsleep].
    rewrite Hrun, Hsleep. clear IH Hrun Hsleep.
    destruct poll as [entries|e]; cbn [Listener.listen_pass].
    + rewrite handle_events_app.
      destruct (Monitor.handle_events cb CONFIG (Listener.mon st) entries
                  (Listener.world st)) as [m w].
      cbn. split; [reflexivity | lia].
    + cbn. split; [reflexivity | lia].
Qed.

(* ================================================================== *)
(** * Further properties of the executor *)
(* ================================================================== *)

Section ExecutorLaws.
Import Database Executor.

Variable CONFIG : Config.
Variable trade_doc : TradeDoc.
Variable sc : Side.

(** The loop never replaces the venue client. *)
Lemma for_attempts_client (attempts : list Z) (self : TradeExecutor) :
  client (fst (for_attempts CONFIG trade_doc sc attempts self)) = client self.
Proof.
  revert self. induction attempts as [|a rest IH]; intro self; [reflexivity|].
  cbn [for_attempts]. unfold attempt_once.
  destruct (client self) as [venue|] eqn:Hc; [|cbn; exact Hc].
  destruct (venue _ _); [cbn; exact Hc|].
  destruct (a <? RETRY_LIMIT CONFIG); [|cbn; exact Hc].
  rewrite IH. exact Hc.
Qed.

(** The store after the loop: untouched, or one status written for the
    trade's id with no retry count. *)
Lemma for_attempts_store (attempts : list Z) (self : TradeExecutor) :
  db (fst (for_attempts CONFIG trade_doc sc attempts self)) = db self
  \/ exists st,
       db (fst (for_attempts CONFIG trade_doc sc attempts self))
       = update_trade_status (db self) (trade_id trade_doc) st None.
Proof.
  revert self. induction attempts as [|a rest IH]; intro self; [now left|].
  cbn [for_attempts]. unfold attempt_once.
  destruct (client self) as [venue|]; [|right; now exists success].
  destruct (venue _ _); [right; now exists success|].
  destruct (a <? RETRY_LIMIT CONFIG); [|right; now exists failed].
  apply (IH (sleep1 (submit self (make_order trade_doc sc)))).
Qed.

(** With a venue, the attempts [j, j+1, ...] up to the limit hand the same
    order to the venue between once and as many times as there are attempts,
    sleep once after every submission but the last, and end in a response or,
    after the last attempt, in a failure. *)
Lemma for_attempts_bounded (venue : ClobClient) (m j : nat) (self : TradeExecutor) :
  client self = Some venue ->
  Z.of_nat (j + S m) = RETRY_LIMIT CONFIG + 1 ->
  exists k : nat,
    (1 <= k <= S m)%nat
    /\ submitted (fst (for_attempts CONFIG trade_doc sc (map Z.of_nat (seq j (S m))) self))
       = submitted self ++ repeat (make_order trade_doc sc) k
    /\ slept (fst (for_attempts CONFIG trade_doc sc (map Z.of_nat (seq j (S m))) self))
       = slept self + Z.of_nat k - 1
    /\ ((exists resp,
           snd (for_attempts CONFIG trade_doc sc (map Z.of_nat (seq j (S m))) self)
           = Response resp
           /\ status_writes
                (fst (for_attempts CONFIG trade_doc sc (map Z.of_nat (seq j (S m))) self))
              = status_writes self ++ [(trade_id trade_doc, success)])
        \/ (exists err,
              snd (for_attempts CONFIG trade_doc sc (map Z.of_nat (seq j (S m))) self)
              = Failed err
              /\ k = S m
              /\ status_writes
                   (fst (for_attempts CONFIG trade_doc sc (map Z.of_nat (seq j (S m))) self))
                 = status_writes self ++ [(trade_id trade_doc, failed)])).
Proof.
  revert j self. induction m as [|m IH]; intros j self Hc Hj.
  - cbn [seq map for_attempts]. unfold attempt_once. rewrite Hc.
    exists 1%nat. split; [lia|].
    destruct (venue (submitted self) (make_order trade_doc sc)) as [resp|e].
    + cbn. repeat split; [lia|]. left. now exists resp.
    + replace (Z.of_nat j <? RETRY_LIMIT CONFIG) with false
        by (symmetry; apply Z.ltb_ge; lia).
      cbn. repeat split; [lia|]. right. now exists (Py.str_exn e).
  - destruct (venue (submitted self) (make_order trade_doc sc)) as [resp|e] eqn:Hv.
    + assert (Hrun :
        for_attempts CONFIG trade_doc sc (map Z.of_nat (seq j (S (S m)))) self
        = (write_status (submit self (make_order trade_doc sc))
             (trade_id trade_doc) success, Response resp)).
      { rewrite <- cons_seq. cbn [map for_attempts]. unfold attempt_once.
        now rewrite Hc, Hv. }
      rewrite Hrun. exists 1%nat. cbn. repeat split; try lia. left. now exists resp.
    + assert (Hrun :
        for_attempts CONFIG trade_doc sc (map Z.of_nat (seq j (S (S m)))) self
        = for_attempts CONFIG trade_doc sc (map Z.of_nat (seq (S j) (S m)))
            (sleep1 (submit self (make_order trade_doc sc)))).
      { rewrite <- cons_seq. cbn [map for_attempts]. unfold attempt_once.
        rewrite Hc, Hv.
        replace (Z.of_nat j <? RETRY_LIMIT CONFIG) with true
          by (symmetry; apply Z.ltb_lt; lia).
        reflexivity. }
      rewrite Hrun.
      destruct (IH (S j) (sleep1 (submit self (make_order trade_doc sc))) Hc ltac:(lia))
        as (k & Hk & Hsub & Hslept & Hout).
      exists (S k). split; [lia|].
      rewrite Hsub, Hslept.
      cbn [sleep1 submit submitted slept status_writes] in *.
      rewrite <- app_assoc. repeat split; [lia|].
      destruct Hout as [(resp & Ho & Hw) | (err & Ho & Hkm & Hw)].
      * left. exists resp. now split.
      * right. exists err. repeat split; auto.
Qed.

Lemma update_none_keeps (self : TradeDatabase) id st :
  Forall2 (fun t u => Pipeline.same_trade_data t u /\ retry_count t = retry_count u)
          self (update_trade_status self id st None).
Proof.
  assert (Hrefl : forall l : TradeDatabase,
    Forall2 (fun t u => Pipeline.same_trade_data t u /\ retry_count t = retry_count u) l l).
  { induction l as [|u l IHl]; constructor; auto.
    unfold Pipeline.same_trade_data. repeat split. }
  induction self as [|t rest IH]; simpl; [constructor|].
  destruct (Py.eqb_opt_str (trade_id t) id).
  - constructor; [|apply Hrefl].
    unfold Pipeline.same_trade_data. repeat split.
  - constructor; [|exact IH].
    unfold Pipeline.same_trade_data. repeat split.
Qed.

Lemma range_succ_nat (n : Z) :
  0 <= n -> Py.range (n + 1) = map Z.of_nat (seq 0 (S (Z.to_nat n))).
Proof.
  intro H. unfold Py.range. f_equal. f_equal. lia.
Qed.

End ExecutorLaws.

(** X17: with a venue, whatever it answers: one call of [execute_trade] on
    a trade with a side hands the same order to the venue at least once and at
    most [RETRY_LIMIT + 1] times, sleeps one second after every submission but
    the last, and ends either with the venue's response and the status success,
    or, only after all [RETRY_LIMIT + 1] submissions, with a failure and the
    status failed. *)
Theorem submissions_are_bounded :
  forall (CONFIG : Config) (self : Executor.TradeExecutor)
         (trade_doc : Database.TradeDoc) (venue : Executor.ClobClient)
         (sc : Executor.Side),
    0 <= RETRY_LIMIT CONFIG ->
    Executor.client self = Some venue ->
    Executor.side_constant trade_doc = Py.Ok sc ->
    let self' := fst (Executor.execute_trade CONFIG self trade_doc) in
    let outcome := snd (Executor.execute_trade CONFIG self trade_doc) in
    exists k : nat,
      (1 <= k)%nat /\ Z.of_nat k <= RETRY_LIMIT CONFIG + 1
      /\ Executor.submitted self'
         = Executor.submitted self ++ repeat (Executor.make_order trade_doc sc) k
      /\ Executor.slept self' = Executor.slept self + Z.of_nat k - 1
      /\ ((exists resp,
             outcome = Py.Ok (Executor.Response resp)
             /\ Executor.status_writes self'
                = Executor.status_writes self
                  ++ [(Database.trade_id trade_doc, Database.success)])
          \/ (exists err,
                outcome = Py.Ok (Executor.Failed err)
                /\ Z.of_nat k = RETRY_LIMIT CONFIG + 1
                /\ Executor.status_writes self'
                   = Executor.status_writes self
                     ++ [(Database.trade_id trade_doc, Database.failed)])).
Proof.
  intros CONFIG self trade_doc venue sc Hlimit Hclient Hside self' outcome.
  subst self' outcome. unfold Executor.execute_trade. rewrite Hside.
  rewrite range_succ_nat by exact Hlimit.
  destruct (for_attempts_bounded CONFIG trade_doc sc venue
              (Z.to_nat (RETRY_LIMIT CONFIG)) 0 self Hclient ltac:(lia))
    as (k & Hk & Hsub & Hslept & Hout).
  destruct (Executor.for_attempts CONFIG trade_doc sc
              (map Z.of_nat (seq 0 (S (Z.to_nat (RETRY_LIMIT CONFIG))))) self)
    as [s o].
  cbn [fst snd] in *.
  exists k. split; [lia|]. split; [lia|]. split; [exact Hsub|]. split; [exact Hslept|].
  destruct Hout as [(resp & -> & Hw) | (err & -> & Hkm & Hw)].
  - left. exists resp. now split.
  - right. exists err. repeat split; auto. lia.
Qed.

Lemma submissions_are_bounded_witness :
  let self := Sample.exec (Some (Sample.venue_up_after 2)) in
  let trade_doc := Sample.doc (Some "buy") in
  let self' := fst (Executor.execute_trade Sample.cfg self trade_doc) in
  let outcome := snd (Executor.execute_trade Sample.cfg self trade_doc) in
  exists k : nat,
    (1 <= k)%nat /\ Z.of_nat k <= 3 + 1
    /\ Executor.submitted self'
       = Executor.submitted self
         ++ repeat (Executor.make_order trade_doc Executor.BUY) k
    /\ Executor.slept self' = Executor.slept self + Z.of_nat k - 1
    /\ ((exists resp,
           outcome = Py.Ok (Executor.Response resp)
           /\ Executor.status_writes self'
              = Executor.status_writes self ++ [(Some "dead", Database.success)])
        \/ (exists err,
              outcome = Py.Ok (Executor.Failed err)
              /\ Z.of_nat k = 3 + 1
              /\ Executor.status_writes self'
                 = Executor.status_writes self ++ [(Some "dead", Database.failed)])).
Proof.
  apply (submissions_are_bounded Sample.cfg
           (Sample.exec (Some (Sample.venue_up_after 2))) (Sample.doc (Some "buy"))
           (Sample.venue_up_after 2) Executor.BUY);
    [simpl; lia | reflexivity | reflexivity].
Defined.

(** X18: a negative retry limit disables the executor.  The loop has no
    pass: nothing is submitted, not even simulated, no status is written, and
    the call returns [None], leaving the trade pending. *)
Theorem negative_retry_limit_does_nothing :
  forall (CONFIG : Config) (self : Executor.TradeExecutor)
         (trade_doc : Database.TradeDoc) (sc : Executor.Side),
    RETRY_LIMIT CONFIG < 0 ->
    Executor.side_constant trade_doc = Py.Ok sc ->
    Executor.execute_trade CONFIG self trade_doc = (self, Py.Ok Executor.ReturnedNone).
Proof.
  intros CONFIG self trade_doc sc Hneg Hside.
  unfold Executor.execute_trade. rewrite Hside. unfold Py.range.
  replace (Z.to_nat (RETRY_LIMIT CONFIG + 1)) with 0%nat by lia.
  reflexivity.
Qed.

Lemma negative_retry_limit_does_nothing_witness :
  Executor.execute_trade
    {| TARGET_WALLET := Some "0xAbC"; TOO_OLD_TIMESTAMP := 300; RETRY_LIMIT := -1 |}
    (Sample.exec None) (Sample.doc (Some "buy"))
  = (Sample.exec None, Py.Ok Executor.ReturnedNone).
Proof.
  apply (negative_retry_limit_does_nothing
           {| TARGET_WALLET := Some "0xAbC"; TOO_OLD_TIMESTAMP := 300; RETRY_LIMIT := -1 |}
           (Sample.exec None) (Sample.doc (Some "buy")) Executor.BUY);
    [simpl; lia | reflexivity].
Defined.

(** X19: [execute_trade] never touches the trade data or the retry counts.
    Whatever the configuration, the venue and the trade, the store keeps its
    length and order and every record keeps all its fields but the status, the
    retry count included (the status is written with no retry count); the venue
    client stays the one configured. *)
Theorem execute_trade_keeps_trade_data :
  forall (CONFIG : Config) (self : Executor.TradeExecutor)
         (trade_doc : Database.TradeDoc),
    Forall2 (fun t u => Pipeline.same_trade_data t u
                        /\ Database.retry_count t = Database.retry_count u)
            (Executor.db self)
            (Executor.db (fst (Executor.execute_trade CONFIG self trade_doc)))
    /\ Executor.client (fst (Executor.execute_trade CONFIG self trade_doc))
       = Executor.client self.
Proof.
  intros CONFIG self trade_doc.
  assert (Hsame : Forall2 (fun t u => Pipeline.same_trade_data t u
                                      /\ Database.retry_count t = Database.retry_count u)
                          (Executor.db self) (Executor.db self)).
  { induction (Executor.db self) as [|u l IHl]; constructor; auto.
    unfold Pipeline.same_trade_data. repeat split. }
  unfold Executor.execute_trade.
  destruct (Executor.side_constant trade_doc) as [sc|e]; [|split; [exact Hsame | reflexivity]].
  pose proof (for_attempts_store CONFIG trade_doc sc
                (Py.range (RETRY_LIMIT CONFIG + 1)) self) as Hstore.
  pose proof (for_attempts_client CONFIG trade_doc sc
                (Py.range (RETRY_LIMIT CONFIG + 1)) self) as Hclient.
  destruct (Executor.for_attempts CONFIG trade_doc sc
              (Py.range (RETRY_LIMIT CONFIG + 1)) self) as [s o].
  cbn [fst] in *. split; [|exact Hclient].
  destruct Hstore as [-> | (st & ->)]; [exact Hsame | apply update_none_keeps].
Qed.

(** X20: the size is not validated.  A trade whose size is missing or zero
    is handed to the venue all the same, as an order of size 0. *)
Theorem zero_size_order_is_submitted :
  forall (CONFIG : Config) (self : Executor.TradeExecutor)
         (trade_doc : Database.TradeDoc) (venue : Executor.ClobClient)
         (sc : Executor.Side),
    0 <= RETRY_LIMIT CONFIG ->
    Executor.client self = Some venue ->
    Executor.side_constant trade_doc = Py.Ok sc ->
    (Database.size trade_doc = None
     \/ exists s, Database.size trade_doc = Some s /\ PrimFloat.eqb s 0 = true) ->
    exists (order_args : Executor.OrderArgs) (later : list Executor.OrderArgs),
      Executor.submitted (fst (Executor.execute_trade CONFIG self trade_doc))
      = Executor.submitted self ++ order_args :: later
      /\ Executor.oa_size order_args = 0%float
      /\ Executor.oa_price order_args = Database.price trade_doc
      /\ Executor.oa_token_id order_args = Database.asset_id trade_doc.
Proof.
  intros CONFIG self trade_doc venue sc Hlimit Hclient Hside Hsize.
  unfold Executor.execute_trade. rewrite Hside.
  rewrite range_succ_nat by exact Hlimit.
  destruct (for_attempts_bounded CONFIG trade_doc sc venue
              (Z.to_nat (RETRY_LIMIT CONFIG)) 0 self Hclient ltac:(lia))
    as (k & Hk & Hsub & _).
  destruct (Executor.for_attempts CONFIG trade_doc sc
              (map Z.of_nat (seq 0 (S (Z.to_nat (RETRY_LIMIT CONFIG))))) self)
    as [s o].
  cbn [fst] in *.
  destruct k as [|k]; [lia|].
  exists (Executor.make_order trade_doc sc), (repeat (Executor.make_order trade_doc sc) k).
  split; [exact Hsub|]. split; [|split; reflexivity].
  cbn [Executor.make_order Executor.oa_size]. unfold Executor.order_size.
  destruct Hsize as [-> | (sz & -> & Hz)]; [reflexivity|].
  unfold Py.truthy. now rewrite Hz.
Qed.

Lemma zero_size_order_is_submitted_witness :
  exists (order_args : Executor.OrderArgs) (later : list Executor.OrderArgs),
    Executor.submitted
      (fst (Executor.execute_trade Sample.cfg (Sample.exec (Some Sample.venue_ok))
              (snd (Database.save_trade_default [] 1700000100
                      {| Database.td_trade_id := Some "dead";
                         Database.td_market := Some "unknown";
                         Database.td_asset_id := Some "42";
                         Database.td_side := Some "buy";
                         Database.td_price := Some 0%float;
                         Database.td_size := Some 0%float;
                         Database.td_timestamp := Some 1700000000 |}))))
    = Executor.submitted (Sample.exec (Some Sample.venue_ok)) ++ order_args :: later
    /\ Executor.oa_size order_args = 0%float
    /\ Executor.oa_price order_args = Some 0%float
    /\ Executor.oa_token_id order_args = Some "42".
Proof.
  apply (zero_size_order_is_submitted Sample.cfg (Sample.exec (Some Sample.venue_ok))
           (snd (Database.save_trade_default [] 1700000100
                   {| Database.td_trade_id := Some "dead";
                      Database.td_market := Some "unknown";
                      Database.td_asset_id := Some "42";
                      Database.td_side := Some "buy";
                      Database.td_price := Some 0%float;
                      Database.td_size := Some 0%float;
                      Database.td_timestamp := Some 1700000000 |}))
           Sample.venue_ok Executor.BUY).
  - simpl. lia.
  - reflexivity.
  - reflexivity.
  - right. exists 0%float. split; reflexivity.
Defined.

(* ================================================================== *)
(** * Further properties of the wiring in main.py *)
(* ================================================================== *)

Section WiringLaws.
Import Database.

Variable CONFIG : Config.
Hypothesis Hlimit : 0 <= RETRY_LIMIT CONFIG.

Let has_side (d : TradeDoc) : Prop := side d = Some "buy" \/ side d = Some "sell".

Let terminal (p : option string * Status) : Prop := snd p = success \/ snd p = failed.

Lemma has_side_constant (d : TradeDoc) :
  has_side d -> exists sc, Executor.side_constant d = Py.Ok sc.
Proof.
  unfold Executor.side_constant. intros [-> | ->]; eexists; reflexivity.
Qed.

(** One call of the callback writes one terminal status, for the trade's id. *)
Lemma callback_one_write (d : TradeDoc) (ex : Executor.TradeExecutor) :
  has_side d ->
  exists st,
    (st = success \/ st = failed)
    /\ Executor.status_writes (Main.trade_callback CONFIG d ex)
       = Executor.status_writes ex ++ [(trade_id d, st)].
Proof.
  intro Hd. destruct (has_side_constant d Hd) as [sc Hsc].
  unfold Main.trade_callback, Executor.execute_trade. rewrite Hsc.
  destruct (for_attempts_terminal CONFIG d sc (Py.range (RETRY_LIMIT CONFIG + 1)) ex)
    as (st & Hst & Hw & _).
  { apply Exists_exists. exists (RETRY_LIMIT CONFIG).
    split; [now apply range_last | lia]. }
  exists st. split; [exact Hst|].
  destruct (Executor.for_attempts CONFIG d sc (Py.range (RETRY_LIMIT CONFIG + 1)) ex).
  exact Hw.
Qed.

Lemma dispatch_writes (added : list TradeDoc) (ex : Executor.TradeExecutor) :
  Forall has_side added ->
  Forall terminal (Executor.status_writes ex) ->
  map fst (Executor.status_writes
             (Pipeline.dispatch (Main.trade_callback CONFIG) added ex))
  = map fst (Executor.status_writes ex) ++ map trade_id added
  /\ Forall terminal
       (Executor.status_writes
          (Pipeline.dispatch (Main.trade_callback CONFIG) added ex)).
Proof.
  revert ex. induction added as [|d rest IH]; intros ex Hall Hterm.
  - cbn. rewrite app_nil_r. now split.
  - inversion Hall as [|? ? Hd Hrest]; subst.
    destruct (callback_one_write d ex Hd) as (st & Hst & Hw).
    unfold Pipeline.dispatch. cbn [fold_left].
    fold (Pipeline.dispatch (Main.trade_callback CONFIG) rest
            (Main.trade_callback CONFIG d ex)).
    destruct (IH (Main.trade_callback CONFIG d ex) Hrest) as [Hids Hterm'].
    { rewrite Hw. apply Forall_app. split; [exact Hterm|]. now constructor. }
    split; [|exact Hterm'].
    rewrite Hids, Hw, map_app. cbn [map fst]. now rewrite <- app_assoc.
Qed.

(** With a venue that accepts every order, one call of the callback hands
    the venue the one order of the trade. *)
Lemma callback_accepted (venue : Executor.ClobClient) (d : TradeDoc)
    (ex : Executor.TradeExecutor) :
  (forall history order, exists resp, venue history order = Py.Ok resp) ->
  Executor.client ex = Some venue ->
  has_side d ->
  Executor.submitted (Main.trade_callback CONFIG d ex)
  = Executor.submitted ex ++ [Pipeline.order_of d]
  /\ Executor.client (Main.trade_callback CONFIG d ex) = Some venue.
Proof.
  intros Haccept Hclient Hd.
  assert (Hsc : Executor.side_constant d
                = Py.Ok (match side d with
                         | Some s => if String.eqb (Py.lower s) "buy"
                                     then Executor.BUY else Executor.SELL
                         | None => Executor.SELL
                         end)).
  { unfold Executor.side_constant. destruct Hd as [-> | ->]; reflexivity. }
  unfold Main.trade_callback, Executor.execute_trade. rewrite Hsc.
  rewrite range_succ_nat by exact Hlimit.
  rewrite <- cons_seq. cbn [map Executor.for_attempts].
  unfold Executor.attempt_once. rewrite Hclient.
  fold (Pipeline.order_of d).
  destruct (Haccept (Executor.submitted ex) (Pipeline.order_of d)) as [resp ->].
  cbn. now split.
Qed.

Lemma dispatch_accepted (venue : Executor.ClobClient) (added : list TradeDoc)
    (ex : Executor.TradeExecutor) :
  (forall history order, exists resp, venue history order = Py.Ok resp) ->
  Executor.client ex = Some venue ->
  Forall has_side added ->
  Executor.submitted (Pipeline.dispatch (Main.trade_callback CONFIG) added ex)
  = Executor.submitted ex ++ map Pipeline.order_of added.
Proof.
  intro Haccept. revert ex.
  induction added as [|d rest IH]; intros ex Hclient Hall.
  - cbn. now rewrite app_nil_r.
  - inversion Hall as [|? ? Hd Hrest]; subst.
    destruct (callback_accepted venue d ex Haccept Hclient Hd) as [Hsub Hcl].
    unfold Pipeline.dispatch. cbn [fold_left].
    fold (Pipeline.dispatch (Main.trade_callback CONFIG) rest
            (Main.trade_callback CONFIG d ex)).
    rewrite (IH _ Hcl Hrest), Hsub. cbn [map]. now rewrite <- app_assoc.
Qed.

(** What the bot started by [main] has saved has a side. *)
Lemma bot_saved_records (w3 : Z -> Py.result Z) (client : option Executor.ClobClient)
    (entries : list Monitor.Arrival) :
  exists added : list TradeDoc,
    Monitor.db (Main.monitor (Main.on_events CONFIG (Main.start CONFIG w3 client) entries))
    = added
    /\ Main.executor (Main.on_events CONFIG (Main.start CONFIG w3 client) entries)
       = Pipeline.dispatch (Main.trade_callback CONFIG) added (Executor.init client)
    /\ Forall has_side added.
Proof.
  unfold Main.on_events, Main.start. cbn [Main.monitor Main.executor].
  destruct (handle_events_appends (Main.trade_callback CONFIG) CONFIG entries
              (Monitor.init CONFIG w3) (Executor.init client))
    as (added & Hdb & _ & Hw & _ & Hall).
  destruct (Monitor.handle_events (Main.trade_callback CONFIG) CONFIG
              (Monitor.init CONFIG w3) entries (Executor.init client)) as [m ex].
  cbn [fst snd Main.monitor Main.executor] in *.
  exists added. split; [exact Hdb|]. split; [exact Hw|].
  apply Forall_forall. intros d Hd.
  rewrite Forall_forall in Hall. destruct (Hall d Hd) as (_ & _ & _ & Hside).
  exact Hside.
Qed.

End WiringLaws.

(** X21: every intent the monitor saves is executed exactly once, in order.
    For the bot wired by [main], under a retry limit that is not negative and
    whatever the venue does: the executor's calls of [update_trade_status]
    name, one for one and in the same order, the trade ids of the records in
    the monitor's store, each with the status success or failed. *)
Theorem every_saved_intent_is_executed_once :
  forall (CONFIG : Config) (w3 : Z -> Py.result Z)
         (client : option Executor.ClobClient) (entries : list Monitor.Arrival),
    0 <= RETRY_LIMIT CONFIG ->
    let bot := Main.on_events CONFIG (Main.start CONFIG w3 client) entries in
    map fst (Executor.status_writes (Main.executor bot))
    = map Database.trade_id (Monitor.db (Main.monitor bot))
    /\ Forall (fun p => snd p = Database.success \/ snd p = Database.failed)
              (Executor.status_writes (Main.executor bot)).
Proof.
  intros CONFIG w3 client entries Hlimit bot. subst bot.
  destruct (bot_saved_records CONFIG w3 client entries) as (added & -> & -> & Hall).
  destruct (dispatch_writes CONFIG Hlimit added (Executor.init client) Hall)
    as [Hids Hterm]; [constructor|].
  split; [exact Hids | exact Hterm].
Qed.

Lemma every_saved_intent_is_executed_once_witness :
  let bot :=
    Main.on_events Sample.cfg (Main.start Sample.cfg Sample.chain (Some Sample.venue_down))
      [Sample.arrival; Sample.arrival] in
  map fst (Executor.status_writes (Main.executor bot))
  = map Database.trade_id (Monitor.db (Main.monitor bot))
  /\ Forall (fun p => snd p = Database.success \/ snd p = Database.failed)
            (Executor.status_writes (Main.executor bot)).
Proof.
  apply (every_saved_intent_is_executed_once Sample.cfg Sample.chain
           (Some Sample.venue_down) [Sample.arrival; Sample.arrival]).
  simpl. lia.
Defined.

(** X22: with a venue that accepts every order (and a retry limit that is
    not negative), the bot wired by [main] hands the venue exactly one order
    per record in the monitor's store, in the order of saving: the record's
    price and asset id, its size scaled by 0.2, BUY for a buy and SELL for a
    sell. *)
Theorem accepted_orders_mirror_saved_intents :
  forall (CONFIG : Config) (w3 : Z -> Py.result Z) (venue : Executor.ClobClient)
         (entries : list Monitor.Arrival),
    0 <= RETRY_LIMIT CONFIG ->
    (forall history order, exists resp, venue history order = Py.Ok resp) ->
    let bot := Main.on_events CONFIG (Main.start CONFIG w3 (Some venue)) entries in
    Executor.submitted (Main.executor bot)
    = map Pipeline.order_of (Monitor.db (Main.monitor bot)).
Proof.
  intros CONFIG w3 venue entries Hlimit Haccept bot. subst bot.
  destruct (bot_saved_records CONFIG w3 (Some venue) entries) as (added & -> & -> & Hall).
  now rewrite (dispatch_accepted CONFIG Hlimit venue added (Executor.init (Some venue))
                 Haccept eq_refl Hall).
Qed.

Lemma accepted_orders_mirror_saved_intents_witness :
  let bot :=
    Main.on_events Sample.cfg (Main.start Sample.cfg Sample.chain (Some Sample.venue_ok))
      [Sample.arrival; Sample.arrival] in
  Executor.submitted (Main.executor bot)
  = map Pipeline.order_of (Monitor.db (Main.monitor bot)).
Proof.
  apply (accepted_orders_mirror_saved_intents Sample.cfg Sample.chain Sample.venue_ok
           [Sample.arrival; Sample.arrival]).
  - simpl. lia.
  - intros history order. exists "matched". reflexivity.
Defined.

Section FailingVenue.
Import Database.

Variable CONFIG : Config.
Hypothesis Hlimit : 0 <= RETRY_LIMIT CONFIG.
Variable venue : Executor.ClobClient.
Hypothesis Hdown : forall history order, exists e, venue history order = Py.Raise e.

(** Against a venue that always raises, one call of the callback hands the
    venue the trade's order [RETRY_LIMIT + 1] times and sleeps [RETRY_LIMIT]
    seconds. *)
Lemma callback_rejected (d : TradeDoc) (ex : Executor.TradeExecutor) :
  Executor.client ex = Some venue ->
  (side d = Some "buy" \/ side d = Some "sell") ->
  Executor.submitted (Main.trade_callback CONFIG d ex)
  = Executor.submitted ex
    ++ repeat (Pipeline.order_of d) (Z.to_nat (RETRY_LIMIT CONFIG + 1))
  /\ Executor.slept (Main.trade_callback CONFIG d ex)
     = Executor.slept ex + RETRY_LIMIT CONFIG
  /\ Executor.client (Main.trade_callback CONFIG d ex) = Some venue.
Proof.
  intros Hclient Hd.
  set (n := Z.to_nat (RETRY_LIMIT CONFIG)).
  assert (Hn : RETRY_LIMIT CONFIG = Z.of_nat n) by (subst n; lia).
  assert (Hsc : exists sc, Executor.side_constant d = Py.Ok sc
                           /\ Pipeline.order_of d = Executor.make_order d sc).
  { unfold Executor.side_constant, Pipeline.order_of.
    destruct Hd as [-> | ->]; eexists; split; reflexivity. }
  destruct Hsc as (sc & Hsc & Horder). rewrite Horder.
  set (order_args := Executor.make_order d sc).
  destruct (Hdown (Executor.submitted ex ++ repeat order_args n) order_args)
    as [last_error Hlast].
  destruct (retried_frame order_args n ex) as (_ & Hcl & _ & Hslept).
  assert (Hrun :
    Main.trade_callback CONFIG d ex
    = Executor.write_status
        (Executor.submit (Executor.retried order_args n ex) order_args)
        (trade_id d) failed).
  { unfold Main.trade_callback, Executor.execute_trade. rewrite Hsc.
    rewrite Hn at 1. rewrite range_split.
    rewrite (for_attempts_retry CONFIG d sc venue n 0 _ ex Hclient)
      by (try lia; intros; apply Hdown).
    fold order_args.
    cbn [Executor.for_attempts]. unfold Executor.attempt_once.
    rewrite Hcl, Hclient, retried_submitted. fold order_args. rewrite Hlast.
    replace (Z.of_nat n <? RETRY_LIMIT CONFIG) with false
      by (symmetry; apply Z.ltb_ge; lia).
    reflexivity. }
  rewrite Hrun.
  cbn [Executor.write_status Executor.submit Executor.submitted Executor.slept
       Executor.client].
  rewrite retried_submitted, Hslept, Hcl.
  replace (Z.to_nat (RETRY_LIMIT CONFIG + 1)) with (S n) by lia.
  split; [|split; [lia | exact Hclient]].
  rewrite <- app_assoc. f_equal. symmetry. apply (repeat_cons n order_args).
Qed.

Lemma dispatch_rejected (added : list TradeDoc) (ex : Executor.TradeExecutor) :
  Executor.client ex = Some venue ->
  Forall (fun d => side d = Some "buy" \/ side d = Some "sell") added ->
  Executor.submitted (Pipeline.dispatch (Main.trade_callback CONFIG) added ex)
  = Executor.submitted ex
    ++ flat_map (fun d => repeat (Pipeline.order_of d)
                                 (Z.to_nat (RETRY_LIMIT CONFIG + 1))) added
  /\ Executor.slept (Pipeline.dispatch (Main.trade_callback CONFIG) added ex)
     = Executor.slept ex + RETRY_LIMIT CONFIG * Z.of_nat (List.length added).
Proof.
  revert ex. induction added as [|d rest IH]; intros ex Hclient Hall.
  - cbn. rewrite app_nil_r. split; [reflexivity | lia].
  - inversion Hall as [|? ? Hd Hrest]; subst.
    destruct (callback_rejected d ex Hclient Hd) as (Hsub & Hslept & Hcl).
    unfold Pipeline.dispatch. cbn [fold_left].
    fold (Pipeline.dispatch (Main.trade_callback CONFIG) rest
            (Main.trade_callback CONFIG d ex)).
    destruct (IH _ Hcl Hrest) as [Hsub' Hslept'].
    rewrite Hsub', Hslept', Hsub, Hslept. cbn [flat_map List.length].
    rewrite <- app_assoc. split; [reflexivity | lia].
Qed.

End FailingVenue.

(** X23: retries are not interleaved, and they hold the listener up.
    Against a venue that rejects every order, the bot wired by [main] hands
    the venue the [RETRY_LIMIT + 1] submissions of each saved intent in one
    block, in the order of saving, before the next event is looked at, and
    spends [RETRY_LIMIT] seconds asleep for each saved intent. *)
Theorem rejected_orders_block_the_listener :
  forall (CONFIG : Config) (w3 : Z -> Py.result Z) (venue : Executor.ClobClient)
         (entries : list Monitor.Arrival),
    0 <= RETRY_LIMIT CONFIG ->
    (forall history order, exists e, venue history order = Py.Raise e) ->
    let bot := Main.on_events CONFIG (Main.start CONFIG w3 (Some venue)) entries in
    Executor.submitted (Main.executor bot)
    = flat_map (fun d => repeat (Pipeline.order_of d)
                                (Z.to_nat (RETRY_LIMIT CONFIG + 1)))
               (Monitor.db (Main.monitor bot))
    /\ Executor.slept (Main.executor bot)
       = RETRY_LIMIT CONFIG * Z.of_nat (List.length (Monitor.db (Main.monitor bot))).
Proof.
  intros CONFIG w3 venue entries Hlimit Hdown bot. subst bot.
  destruct (bot_saved_records CONFIG w3 (Some venue) entries) as (added & -> & -> & Hall).
  destruct (dispatch_rejected CONFIG Hlimit venue Hdown added
              (Executor.init (Some venue)) eq_refl Hall) as [Hsub Hslept].
  rewrite Hsub, Hslept. cbn [Executor.init Executor.submitted Executor.slept app].
  split; [reflexivity | lia].
Qed.

Lemma rejected_orders_block_the_listener_witness :
  let bot :=
    Main.on_events Sample.cfg (Main.start Sample.cfg Sample.chain (Some Sample.venue_down))
      [Sample.arrival; Sample.arrival] in
  Executor.submitted (Main.executor bot)
  = flat_map (fun d => repeat (Pipeline.order_of d) (Z.to_nat (3 + 1)))
             (Monitor.db (Main.monitor bot))
  /\ Executor.slept (Main.executor bot)
     = 3 * Z.of_nat (List.length (Monitor.db (Main.monitor bot))).
Proof.
  apply (rejected_orders_block_the_listener Sample.cfg Sample.chain Sample.venue_down
           [Sample.arrival; Sample.arrival]).
  - simpl. lia.
  - intros history order. exists (Py.VenueError "503"). reflexivity.
Defined.

(** X2: the pending list follows the order of saving.  After [save_trade]
    with status pending it is the list of before followed by the new record;
    after [save_trade] with any other status it is the list of before. *)
Theorem pending_list_after_save :
  forall (self : Database.TradeDatabase) (now : float) (td : Database.TradeData)
         (st : Database.Status) (rc : Z),
    Database.get_pending_trades (fst (Database.save_trade self now td st rc))
    = Database.get_pending_trades self
      ++ (if Database.Status_eqb st Database.pending
          then [snd (Database.save_trade self now td st rc)] else []).
Proof.
  intros self now td st rc.
  cbn [Database.save_trade fst snd]. rewrite pending_app.
  apply (f_equal (app (Database.get_pending_trades self))).
  unfold Database.get_pending_trades. cbn [filter Database.status].
  now destruct (Database.Status_eqb st Database.pending).
Qed.
